(** * Characterizing variable stars with APOGEE + TESS

    A shallow embedding of the procedural logic of
    [notebooks/SDSS/APOGEE_TESS_tutorial/APOGEE_TESS_tutorial.ipynb]:
    the closest-match selection, the log-spaced wavelength grid, the pixel
    mask, the light-curve gridlines, the composite plot builder
    [plot_spectrum_and_lc] and the orchestration [plot_variable_star].

    Conventions of the embedding.
    - A floating-point sample is a [float]: NaN, an infinity, or a finite
      value carried by the rational it denotes.  Comparisons follow IEEE 754
      (every comparison with NaN is false); arithmetic on header scalars is
      exact.
    - A Python exception is an [exn]; fallible code returns a [result].
    - Plotting, printing and saving are effects: the builder runs in a
      writer-and-error monad [M] that records each call as an [event]. *)

From Stdlib Require Import List ZArith QArith Qround Qreals Reals Lia Psatz.
From Stdlib Require Import String Ascii Bool Arith Sorted.
From Stdlib Require Floats.
Import ListNotations.

Set Implicit Arguments.

Local Open Scope string_scope.
Local Open Scope list_scope.

(** ** Exceptions and results *)

Inductive exn : Type :=
| IndexError (msg : string)
| ValueError (msg : string)
| OverflowError (msg : string)
| ArchiveError (msg : string).

Definition exn_message (e : exn) : string :=
  match e with
  | IndexError m | ValueError m | OverflowError m | ArchiveError m => m
  end.

Inductive result (A : Type) : Type :=
| Ok (a : A)
| Raise (e : exn).

Arguments Ok {A} a.
Arguments Raise {A} e.

Definition rbind {A B} (r : result A) (f : A -> result B) : result B :=
  match r with
  | Ok a => f a
  | Raise e => Raise e
  end.

(** [a[i]] on a sequence: Python raises [IndexError] out of range. *)
Definition getitem {A} (a : list A) (i : nat) : result A :=
  match nth_error a i with
  | Some x => Ok x
  | None => Raise (IndexError "index out of bounds")
  end.

(** ** Floating-point samples *)

Module Float.

Inductive float : Type :=
| NaN
| NInf
| Fin (q : Q)
| PInf.

Definition isnan (x : float) : bool :=
  match x with NaN => true | _ => false end.

Definition Qltb (a b : Q) : bool := negb (Qle_bool b a).

(** IEEE [x < y]. *)
Definition ltb (x y : float) : bool :=
  match x, y with
  | NaN, _ | _, NaN => false
  | PInf, _ | _, NInf => false
  | NInf, _ | _, PInf => true
  | Fin a, Fin b => Qltb a b
  end.

(** IEEE [x <= y]. *)
Definition leb (x y : float) : bool :=
  match x, y with
  | NaN, _ | _, NaN => false
  | NInf, _ | _, PInf => true
  | PInf, _ | _, NInf => false
  | Fin a, Fin b => Qle_bool a b
  end.

(** Python truthiness of a float: non-zero (NaN is true). *)
Definition truthy (x : float) : bool :=
  match x with
  | Fin q => negb (Qeq_bool q 0)
  | _ => true
  end.

(** [int(x)]: truncation toward zero; NaN and the infinities raise. *)
Definition to_int (x : float) : result Z :=
  match x with
  | NaN => Raise (ValueError "cannot convert float NaN to integer")
  | NInf | PInf =>
      Raise (OverflowError "cannot convert float infinity to integer")
  | Fin q => Ok (Z.quot (Qnum q) (Zpos (Qden q)))
  end.

(** [np.fmin] and [np.fmax]: the other operand when one is NaN. *)
Definition fmin (x y : float) : float :=
  if isnan y then x else if isnan x then y else if leb x y then x else y.

Definition fmax (x y : float) : float :=
  if isnan y then x else if isnan x then y else if leb y x then x else y.

End Float.

Import Float.

(** ** numpy reductions *)

(** The scan of numpy's [argmin] on a float array: [mp] is the running
    minimum, [min_ind] its index, [i] the index of the head of [ip].  The
    test is the negated [mp <= x], so that a NaN is taken and ends the
    scan. *)
Fixpoint argmin_loop (mp : float) (min_ind i : nat) (ip : list float) : nat :=
  match ip with
  | [] => min_ind
  | x :: rest =>
      if negb (leb mp x)
      then if isnan x then i else argmin_loop x i (S i) rest
      else argmin_loop mp min_ind (S i) rest
  end.

Definition argmin (a : list float) : result nat :=
  match a with
  | [] => Raise (ValueError "attempt to get argmin of an empty sequence")
  | mp :: rest => if isnan mp then Ok 0%nat else Ok (argmin_loop mp 0 1 rest)
  end.

(** [np.nanmin]/[np.nanmax] on a float array: [fmin.reduce]/[fmax.reduce];
    an empty array raises, an all-NaN array gives NaN (with a warning). *)
Definition nanmin (a : list float) : result float :=
  match a with
  | [] => Raise (ValueError "zero-size array to reduction operation fmin which has no identity")
  | x :: rest => Ok (fold_left fmin rest x)
  end.

Definition nanmax (a : list float) : result float :=
  match a with
  | [] => Raise (ValueError "zero-size array to reduction operation fmax which has no identity")
  | x :: rest => Ok (fold_left fmax rest x)
  end.

(** Python's [range(a, b)]. *)
Definition range (a b : Z) : list Z :=
  map (fun k => (a + Z.of_nat k)%Z) (seq 0 (Z.to_nat (b - a))).

(** ** Observation tables and the closest match *)

(** One row of an archive query result (the columns the notebook reads). *)
Record obs_row : Type := mk_obs {
  obs_id : string;
  s_ra : float;
  s_dec : float;
  distance : float
}.

(** [tess_obs[np.argmin(tess_obs['distance'])]]. *)
Definition closest_match (tess_obs : list obs_row) : result obs_row :=
  rbind (argmin (map distance tess_obs)) (fun i => getitem tess_obs i).

(** ** The log-spaced wavelength grid *)

(** A grid wavelength is the value [10 ** y] of a rational exponent [y];
    it is kept by its exponent, and [wave_val] is the real it denotes. *)
Inductive wave : Type :=
| Pow10 (y : Q).

Definition wave_exponent (w : wave) : Q :=
  match w with Pow10 y => y end.

Definition wave_val (w : wave) : R :=
  Rpower 10 (Q2R (wave_exponent w)).

Definition wave_leb (a b : wave) : bool :=
  Qle_bool (wave_exponent a) (wave_exponent b).

(** [np.linspace(start, stop, num)] with the default [endpoint=True]:
    [arange(0, num) * step + start] with [step = (stop - start) / (num - 1)],
    the last sample then set to [stop] when [num > 1]. *)
Definition linspace (start stop : Q) (num : nat) : list Q :=
  let div := (num - 1)%nat in
  let delta := stop - start in
  let step := delta / inject_Z (Z.of_nat div) in
  let y :=
    map (fun i => inject_Z (Z.of_nat i) * (if (0 <? div)%nat then step else delta) + start)
        (seq 0 num) in
  if (1 <? num)%nat then firstn div y ++ [stop] else y.

(** [np.logspace(start, stop, num)] with the default base 10. *)
Definition logspace (start stop : Q) (num : nat) : list wave :=
  map Pow10 (linspace start stop num).

(** An image extension of the spectrum file: the header scalars the
    notebook reads, and the pixel array. *)
Record image_hdu : Type := mk_image {
  CRVAL1 : Q;
  CDELT1 : Q;
  NAXIS1 : nat;
  data : list float
}.

(** One row of the ASPCAP table (extension 4). *)
Record aspcap_row : Type := mk_aspcap {
  APOGEE_ID : string;
  FPARAM : list float
}.

(** The opened [aspcapStar] file: [apogee_spec[1]] .. [apogee_spec[4]]. *)
Record apogee_spec : Type := mk_spec {
  hdu1 : image_hdu;
  hdu2 : image_hdu;
  hdu3 : image_hdu;
  hdu4 : list aspcap_row
}.

(** The notebook's global [apogee_wls]: the stop of the grid reads
    [NAXIS1] of extension 3, the sample count reads it of extension 1. *)
Definition apogee_wls_of (aspcap_star : apogee_spec) : list wave :=
  logspace (CRVAL1 (hdu1 aspcap_star))
           (CRVAL1 (hdu1 aspcap_star)
            + CDELT1 (hdu1 aspcap_star)
              * inject_Z (Z.of_nat (NAXIS1 (hdu3 aspcap_star))))
           (NAXIS1 (hdu1 aspcap_star)).

(** [np.min]/[np.max] on the grid. *)
Definition np_min (a : list wave) : result wave :=
  match a with
  | [] => Raise (ValueError "zero-size array to reduction operation minimum which has no identity")
  | x :: rest => Ok (fold_left (fun m w => if wave_leb m w then m else w) rest x)
  end.

Definition np_max (a : list wave) : result wave :=
  match a with
  | [] => Raise (ValueError "zero-size array to reduction operation maximum which has no identity")
  | x :: rest => Ok (fold_left (fun m w => if wave_leb w m then m else w) rest x)
  end.

(** ** The pixel mask *)

(** The literal [0.1]. *)
Definition pixel_threshold : float := Fin (1 # 10).

(** [pixel_mask = (apogee_spec[2].data < 0.1)]. *)
Definition pixel_mask (err : list float) : list bool :=
  map (fun e => ltb e pixel_threshold) err.

(** The elements of [a] at the positions where [mask] is true. *)
Fixpoint compress {A} (mask : list bool) (a : list A) : list A :=
  match mask, a with
  | m :: mask', x :: a' => if m then x :: compress mask' a' else compress mask' a'
  | _, _ => []
  end.

(** [a[mask]] for a boolean array [mask]: the shapes must agree. *)
Definition mask_index {A} (a : list A) (mask : list bool) : result (list A) :=
  if (List.length a =? List.length mask)%nat
  then Ok (compress mask a)
  else Raise (IndexError "boolean index did not match indexed array along axis 0").

(** The positions kept by a mask, counted from [i]. *)
Fixpoint kept_from (i : nat) (mask : list bool) : list nat :=
  match mask with
  | [] => []
  | m :: mask' => if m then i :: kept_from (S i) mask' else kept_from (S i) mask'
  end.

(** [np.where(mask)[0]]. *)
Definition np_where (mask : list bool) : list nat := kept_from 0 mask.

(** ** The population catalog and the light curve *)

(** A table cell read with [Table.read]: invalid entries are masked. *)
Definition cell : Type := option float.

(** Truthiness of a cell: the masked constant is false. *)
Definition cell_truthy (c : cell) : bool :=
  match c with
  | None => false
  | Some x => truthy x
  end.

(** One row of the [allStar] catalog. *)
Record allstar_row : Type := mk_allstar {
  cat_APOGEE_ID : string;
  TEFF : cell;
  LOGG : cell;
  FE_H : cell
}.

(** One row of the [LIGHTCURVE] table. *)
Record lc_row : Type := mk_lc {
  TIME : float;
  SAP_FLUX : float
}.

(** The opened TESS light-curve file. *)
Record tess_lightcurve : Type := mk_tess {
  OBJECT : string;
  LIGHTCURVE : list lc_row
}.

(** [a[::step]]: every [step]-th element, from the first; [skip] elements
    are passed over before the next one is taken. *)
Fixpoint stride_from {A} (step skip : nat) (a : list A) : list A :=
  match a with
  | [] => []
  | x :: rest =>
      match skip with
      | O => x :: stride_from step (step - 1) rest
      | S k => stride_from step k rest
      end
  end.

Definition slice_step {A} (step : nat) (a : list A) : list A :=
  stride_from step 0 a.

(** ** Plotting effects *)

Inductive axis : Type := ax1 | ax2 | ax3.

(** A plotted datum. *)
Inductive value : Type :=
| VFloat (x : float)
| VMasked
| VWave (w : wave).

Definition cell_value (c : cell) : value :=
  match c with
  | None => VMasked
  | Some x => VFloat x
  end.

Inductive event : Type :=
| Figure (width height : Z)
| Scatter (ax : axis) (x y c : list value) (marker : string) (s : Z)
          (vmin vmax : Q) (zorder : Z) (label : option string)
| Colorbar (ax : axis) (location label : string)
| Plot (ax : axis) (x y : list value) (color label : string)
| AxVLine (ax : axis) (x : Z) (color : string)
| SetXLim (ax : axis) (lo hi : value)
| SetYLim (ax : axis) (lo hi : value)
| SetXLabel (ax : axis) (label : string)
| SetYLabel (ax : axis) (label : string)
| SetTitle (ax : axis) (title : string)
| Grid (ax : axis)
| Legend (ax : axis)
| TightLayout
| SaveFig (save_name : string)
| PrintLine (line : string)
| PltShow.

(** Effectful code: the events emitted so far, and a value or the
    exception that stopped the run. *)
Definition M (A : Type) : Type := (list event * result A)%type.

Definition ret {A} (a : A) : M A := ([], Ok a).

Definition bind {A B} (m : M A) (f : A -> M B) : M B :=
  match m with
  | (t, Ok a) => let (t', r) := f a in (t ++ t', r)
  | (t, Raise e) => (t, Raise e)
  end.

Definition emit (e : event) : M unit := ([e], Ok tt).

Definition lift {A} (r : result A) : M A := ([], r).

Declare Scope monad_scope.
Delimit Scope monad_scope with monad.
Notation "x <- c1 ;; c2" := (bind c1 (fun x => c2))
  (at level 61, c1 at next level, right associativity) : monad_scope.
Notation "c1 ;; c2" := (bind c1 (fun _ => c2))
  (at level 61, right associativity) : monad_scope.

Definition trace {A} (m : M A) : list event := fst m.
Definition outcome {A} (m : M A) : result A := snd m.

(** A body run once per element, as a [for] loop does. *)
Fixpoint for_each {A} (l : list A) (body : A -> M unit) : M unit :=
  match l with
  | [] => ret tt
  | x :: rest => bind (body x) (fun _ => for_each rest body)
  end.

(** The artifact files a run wrote. *)
Definition artifacts (t : list event) : list string :=
  flat_map (fun e => match e with SaveFig n => [n] | _ => [] end) t.

(** The titles set, in order. *)
Definition titles (t : list event) : list (axis * string) :=
  flat_map (fun e => match e with SetTitle ax s => [(ax, s)] | _ => [] end) t.

Definition is_plot (e : event) : bool :=
  match e with Plot _ _ _ _ _ => true | _ => false end.

Definition is_axvline (e : event) : bool :=
  match e with AxVLine _ _ _ => true | _ => false end.

Definition is_print (e : event) : bool :=
  match e with PrintLine _ => true | _ => false end.

(** The scatter calls drawn with a given marker. *)
Definition scatters_with (marker : string) (t : list event) : list event :=
  filter (fun e => match e with
                   | Scatter _ _ _ _ m _ _ _ _ _ => String.eqb m marker
                   | _ => false
                   end) t.

(** [sub in s]. *)
Definition contains (sub s : string) : bool :=
  match String.index 0 sub s with
  | Some _ => true
  | None => false
  end.

(** The warning printed when the star's catalog parameters are not valid. *)
Definition quality_warning : string :=
  "WARNING: Quality Warning Flags on ASPCAP star parameters. ASPCAP parameters may not be reliable for this star.".

(** ** The composite plot builder *)

Local Open Scope monad_scope.

Section PlotBuilder.

(** The notebook's globals read by the builder. *)
Variable allstar : list allstar_row.
Variable apogee_wls : list wave.

(** [np.where(allstar['APOGEE_ID'] == apogee_id)[0][0]]: the first catalog
    row of the star. *)
Definition target_index (apogee_id : string) : result nat :=
  getitem (np_where (map (fun r => String.eqb (cat_APOGEE_ID r) apogee_id) allstar)) 0.

(** AX1, the HR diagram: one catalog point out of ten, then the star. *)
Definition population_panel (spec : apogee_spec) : M unit :=
  emit (Scatter ax1
          (map cell_value (slice_step 10 (map TEFF allstar)))
          (map cell_value (slice_step 10 (map LOGG allstar)))
          (map cell_value (slice_step 10 (map FE_H allstar)))
          "." 1 (-1) (1 # 2) 1 None) ;;
  emit (Colorbar ax1 "bottom" "Metallicity [Fe/H]") ;;
  row0 <- lift (getitem (hdu4 spec) 0) ;;
  indx <- lift (target_index (APOGEE_ID row0)) ;;
  teff <- lift (getitem (map TEFF allstar) indx) ;;
  (if cell_truthy teff
   then
     logg <- lift (getitem (map LOGG allstar) indx) ;;
     fe_h <- lift (getitem (map FE_H allstar) indx) ;;
     emit (Scatter ax1 [cell_value teff] [cell_value logg] [cell_value fe_h]
             "*" 1000 (-1) (1 # 2) 5 (Some "APOGEE Parameters"))
   else
     emit (PrintLine quality_warning) ;;
     fparam <- lift (getitem (map FPARAM (hdu4 spec)) 0) ;;
     f0 <- lift (getitem fparam 0) ;;
     f1 <- lift (getitem fparam 1) ;;
     f3 <- lift (getitem fparam 3) ;;
     emit (Scatter ax1 [VFloat f0] [VFloat f1] [VFloat f3]
             "*" 1000 (-1) (1 # 2) 5 (Some "APOGEE Parameters"))) ;;
  emit (SetXLim ax1 (VFloat (Fin 7000)) (VFloat (Fin 3000))) ;;
  emit (SetYLim ax1 (VFloat (Fin (11 # 2))) (VFloat (Fin (- (1 # 2))))) ;;
  emit (SetXLabel ax1 "Effective Temperature [$T_{\rm{eff}}$, K]") ;;
  emit (SetYLabel ax1 "Surface Gravity [$\log(g)$]") ;;
  emit (Grid ax1) ;;
  emit (SetTitle ax1 "APOGEE Stellar Parameters - allStar").

(** AX2, the spectrum: observed and model flux under the pixel mask.
    Returns [apogee_id], which names the saved file later. *)
Definition spectrum_panel (spec : apogee_spec) : M string :=
  let observed_flux := data (hdu1 spec) in
  let model_flux := data (hdu3 spec) in
  let mask := pixel_mask (data (hdu2 spec)) in
  wls <- lift (mask_index apogee_wls mask) ;;
  obs <- lift (mask_index observed_flux mask) ;;
  emit (Plot ax2 (map VWave wls) (map VFloat obs) "k" "Observed Spectrum") ;;
  wls' <- lift (mask_index apogee_wls mask) ;;
  mod_ <- lift (mask_index model_flux mask) ;;
  emit (Plot ax2 (map VWave wls') (map VFloat mod_) "darkred" "Best Fit Model Spectrum") ;;
  emit (SetYLim ax2 (VFloat (Fin (3 # 5))) (VFloat (Fin (11 # 10)))) ;;
  lo <- lift (np_min apogee_wls) ;;
  hi <- lift (np_max apogee_wls) ;;
  emit (SetXLim ax2 (VWave lo) (VWave hi)) ;;
  row0 <- lift (getitem (hdu4 spec) 0) ;;
  let apogee_id := APOGEE_ID row0 in
  emit (SetTitle ax2 (String.append "APOGEE Spectrum - " apogee_id)) ;;
  emit (SetXLabel ax2 "Wavelength [$\AA$]") ;;
  emit (SetYLabel ax2 "Flux") ;;
  emit (Grid ax2) ;;
  emit (Legend ax2) ;;
  ret apogee_id.

(** The days at which a vertical line is drawn:
    [range(int(np.nanmin(time)), int(np.nanmax(time)))]. *)
Definition gridlines (time : list float) : result (list Z) :=
  rbind (nanmin time) (fun lo =>
  rbind (to_int lo) (fun a =>
  rbind (nanmax time) (fun hi =>
  rbind (to_int hi) (fun b =>
  Ok (range a b))))).

(** AX3, the light curve. *)
Definition lightcurve_panel (tess_lc : tess_lightcurve) : M unit :=
  let time := map TIME (LIGHTCURVE tess_lc) in
  emit (Plot ax3 (map VFloat time) (map (fun r => VFloat (SAP_FLUX r)) (LIGHTCURVE tess_lc))
          "k" "TESS Light Curve") ;;
  days <- lift (gridlines time) ;;
  for_each days (fun i => emit (AxVLine ax3 i "lightgrey")) ;;
  emit (SetTitle ax3 (String.append "TESS-SPOC Light Curve - " (OBJECT tess_lc))) ;;
  emit (SetXLabel ax3 "Time [BTJD]") ;;
  emit (SetYLabel ax3 "Flux") ;;
  emit (Grid ax3).

Definition save_name_of (apogee_id : string) : string :=
  String.append apogee_id "_APOGEE_spec_TESS_lightcurve.png".

Definition plot_spectrum_and_lc (spec : apogee_spec) (tess_lc : tess_lightcurve)
  : M unit :=
  emit (Figure 20 10) ;;
  population_panel spec ;;
  apogee_id <- spectrum_panel spec ;;
  lightcurve_panel tess_lc ;;
  emit TightLayout ;;
  let save_name := save_name_of apogee_id in
  emit (SaveFig save_name) ;;
  emit (PrintLine (String.append "Saved to " save_name)) ;;
  emit PltShow.

End PlotBuilder.

(** ** The orchestration *)

(** A product descriptor and a download manifest row. *)
Record product_row : Type := mk_product {
  productFilename : string;
  productSubGroupDescription : string;
  description : string
}.

Record manifest_row : Type := mk_manifest {
  Local_Path : string;
  Status : string
}.

Inductive product_filter : Type :=
| BySubGroup (label : string)
| ByDescription (label : string).

(** The external collaborators: the archive client and the file reader.
    Their answers are inputs of the workflow. *)
Record ArchiveClient : Type := mk_archive {
  query_apogee : string -> result (list obs_row);
  query_tess : float -> float -> result (list obs_row);
  get_product_list : list obs_row -> result (list product_row);
  download_products : list product_row -> product_filter -> result (list manifest_row);
  open_spectrum : string -> result apogee_spec;
  open_lightcurve : string -> result tess_lightcurve
}.

Fixpoint string_repeat (s : string) (n : nat) : string :=
  match n with
  | O => EmptyString
  | S k => String.append s (string_repeat s k)
  end.

Section Orchestration.

Variable Observations : ArchiveClient.
Variable allstar : list allstar_row.
Variable apogee_wls : list wave.

Definition plot_variable_star (apogee_id : string) : M unit :=
  emit (PrintLine (string_repeat "=" 50)) ;;
  emit (PrintLine (String.append "Plotting Spectrum and Light Curve for " apogee_id)) ;;
  emit (PrintLine (string_repeat "=" 50)) ;;
  emit (PrintLine "Searching For APOGEE Data...") ;;
  apogee_obs_list <- lift (query_apogee Observations apogee_id) ;;
  emit (PrintLine "Downloading APOGEE Data...") ;;
  product_list <- lift (get_product_list Observations apogee_obs_list) ;;
  manifest <- lift (download_products Observations product_list (BySubGroup "ASPCAPSTAR")) ;;
  path <- lift (getitem (map Local_Path manifest) 0) ;;
  aspcapstar <- lift (open_spectrum Observations path) ;;
  ra <- lift (getitem (map s_ra apogee_obs_list) 0) ;;
  dec <- lift (getitem (map s_dec apogee_obs_list) 0) ;;
  emit (PrintLine "Searching For TESS Data...") ;;
  tess_obs <- lift (query_tess Observations ra dec) ;;
  tess_row <- lift (closest_match tess_obs) ;;
  emit (PrintLine "Downloading TESS Data...") ;;
  tess_products <- lift (get_product_list Observations [tess_row]) ;;
  manifest' <- lift (download_products Observations tess_products (ByDescription "Light curves")) ;;
  path' <- lift (getitem (map Local_Path manifest') 0) ;;
  tess_lc <- lift (open_lightcurve Observations path') ;;
  emit (PrintLine "Making Plot...") ;;
  plot_spectrum_and_lc allstar apogee_wls aspcapstar tess_lc.

End Orchestration.

(** ** Specification predicates and sample data *)

(** The element of [a] at an optional position. *)
Definition pick {A} (a : list A) (pos : option nat) : option A :=
  match pos with
  | Some i => nth_error a i
  | None => None
  end.

(** The samples that are not NaN. *)
Definition defined (a : list float) : list float :=
  filter (fun x => negb (isnan x)) a.

(** [np.fmin] and [np.fmax] are one selection, on [<=] and on [>=]: the
    operand that is not NaN, else the one that comes first for [le]. *)
Definition sel (le : float -> float -> bool) (x y : float) : float :=
  if isnan y then x else if isnan x then y else if le x y then x else y.

(** [m] sits at position [k] of [a], nothing in [a] is below it, and
    everything before position [k] is strictly above it. *)
Definition first_min (a : list float) (k : nat) (m : float) : Prop :=
  nth_error a k = Some m /\
  (forall x, In x a -> leb m x = true) /\
  (forall j x, (j < k)%nat -> nth_error a j = Some x -> ltb m x = true).

(** Three sectors, the first two tied at distance 0. *)
Definition tess_obs_example : list obs_row :=
  [ mk_obs "tess-s0014" (Fin 297) (Fin 43) (Fin 0);
    mk_obs "tess-s0015" (Fin 297) (Fin 43) (Fin 0);
    mk_obs "tess-s0041" (Fin 297) (Fin 43) (Fin (1 # 2)) ].

(** A four-pixel spectrum on the APOGEE grid constants. *)
Definition aspcap_star_example : apogee_spec :=
  mk_spec
    (mk_image (4179 # 1000) (6 # 1000000) 4 [Fin 1; Fin (9 # 10); Fin (8 # 10); Fin 1])
    (mk_image 0 0 4 [Fin (1 # 100); Fin (1 # 10); Fin (5 # 100); NaN])
    (mk_image (4179 # 1000) (6 # 1000000) 4 [Fin 1; Fin 1; Fin (7 # 10); Fin 1])
    [mk_aspcap "V1154_Cyg" [Fin 6000; Fin 2; Fin 1; Fin (- (1 # 10))]].


(** A light curve with a gap (NaN) in its time column. *)
Definition tess_lc_example : tess_lightcurve :=
  mk_tess "TIC 26544959"
    [ mk_lc NaN (Fin 1000);
      mk_lc (Fin (17115 # 10)) (Fin 1001);
      mk_lc (Fin (17140 # 10)) (Fin 999);
      mk_lc NaN NaN;
      mk_lc (Fin (17132 # 10)) (Fin 1002) ].

(** The wavelength grid of the example spectrum. *)
Definition apogee_wls_example : list wave := apogee_wls_of aspcap_star_example.

(** An eleven-row catalog: the Cepheid at row 1, and at row 2 an eclipsing
    binary whose calibrated parameters are masked. *)
Definition allstar_example : list allstar_row :=
  [ mk_allstar "2M00000002+7417074" (Some (Fin 3723)) (Some (Fin (9 # 10))) (Some (Fin (- (16 # 100))));
    mk_allstar "V1154_Cyg" (Some (Fin 6012)) (Some (Fin 2)) (Some (Fin (- (1 # 10))));
    mk_allstar "2M19203184+3830492" None None None;
    mk_allstar "2M00000019-1924498" (Some (Fin 5501)) (Some (Fin 4)) (Some (Fin (- (3 # 10))));
    mk_allstar "2M00000032+5737103" (Some (Fin 6174)) (Some (Fin (39 # 10))) (Some (Fin (- (19 # 100))));
    mk_allstar "2M00000035-7323394" (Some (Fin 3874)) (Some (Fin (11 # 10))) (Some (Fin (- (9 # 10))));
    mk_allstar "2M00000068+5710233" (Some (Fin 5031)) (Some (Fin (34 # 10))) (Some (Fin (- (16 # 100))));
    mk_allstar "2M00000103+1525513" (Some (Fin 3964)) (Some (Fin (45 # 10))) (Some (Fin (2 # 10)));
    mk_allstar "2M00000133+5721163" (Some (Fin 4974)) (Some (Fin (26 # 10))) (Some (Fin (- (2 # 10))));
    mk_allstar "2M00000211+6327470" (Some (Fin 4681)) (Some (Fin (23 # 10))) (Some (Fin (- (1 # 100))));
    mk_allstar "2M00000222+5625359" (Some (Fin 4254)) (Some (Fin (17 # 10))) (Some (Fin (1 # 10))) ].

(** The spectrum of the eclipsing binary, with its pipeline-fit
    parameters. *)
Definition aspcap_binary_example : apogee_spec :=
  mk_spec
    (mk_image (4179 # 1000) (6 # 1000000) 4 [Fin 1; Fin 1; Fin (9 # 10); Fin 1])
    (mk_image 0 0 4 [Fin (2 # 100); Fin (3 # 100); Fin (5 # 100); Fin (1 # 100)])
    (mk_image (4179 # 1000) (6 # 1000000) 4 [Fin 1; Fin 1; Fin 1; Fin 1])
    [mk_aspcap "2M19203184+3830492"
               [Fin 5800; Fin (42 # 10); Fin 1; Fin (5 # 100); Fin 0; Fin 0; Fin 0; Fin 0; Fin 0]].

(** The points a scatter call draws: (x, y, color) triples. *)
Definition scatter_points (e : event) : list (value * value * value) :=
  match e with
  | Scatter _ x y c _ _ _ _ _ _ => combine (combine x y) c
  | _ => []
  end.

(** The (temperature, surface gravity, metallicity) triple of every catalog
    entry. *)
Definition catalog_points (allstar : list allstar_row) : list (value * value * value) :=
  map (fun r => (cell_value (TEFF r), cell_value (LOGG r), cell_value (FE_H r))) allstar.

(** Every catalog entry is drawn by some scatter call of the run. *)
Definition plots_all_catalog_entries (allstar : list allstar_row) (t : list event) : Prop :=
  forall p, In p (catalog_points allstar) ->
            exists e, In e t /\ In p (scatter_points e).

(** Each of the three panels has a title that contains [id]. *)
Definition titles_share_identifier (t : list event) (id : string) : Prop :=
  forall ax, exists s, In (ax, s) (titles t) /\ contains id s = true.

(** The first catalog row of a star. *)
Definition catalog_row (allstar : list allstar_row) (apogee_id : string)
  : option allstar_row :=
  find (fun r => String.eqb (cat_APOGEE_ID r) apogee_id) allstar.

(** A spectrum whose star is not in the example catalog. *)
Definition aspcap_absent_example : apogee_spec :=
  mk_spec
    (mk_image (4179 # 1000) (6 # 1000000) 4 [Fin 1; Fin 1; Fin 1; Fin 1])
    (mk_image 0 0 4 [Fin (1 # 100); Fin (1 # 100); Fin (1 # 100); Fin (1 # 100)])
    (mk_image (4179 # 1000) (6 # 1000000) 4 [Fin 1; Fin 1; Fin 1; Fin 1])
    [mk_aspcap "2M11361176+8117369" [Fin 6500; Fin 3; Fin 1; Fin (- (12 # 10))]].

(** The run stops with an error whose message contains [id]. *)
Definition fails_naming (m : M unit) (id : string) : Prop :=
  exists e, outcome m = Raise e /\ contains id (exn_message e) = true.

(** An archive that holds the spectrum of a star but no TESS time series
    at its position. *)
Definition archive_without_tess : ArchiveClient :=
  mk_archive
    (fun target_name =>
       Ok [mk_obs (String.append "sdss_apogee_" target_name)
                  (Fin 174) (Fin 81) (Fin 0)])
    (fun ra dec => Ok [])
    (fun obs => Ok [mk_product "aspcapStar-dr17.fits" "ASPCAPSTAR" "spectrum"])
    (fun products filter => Ok [mk_manifest "mastDownload/SDSS/aspcapStar-dr17.fits" "COMPLETE"])
    (fun path => Ok aspcap_absent_example)
    (fun path => Ok tess_lc_example).

(** ** The stand-alone cells of the notebook *)

(** The HR-diagram cell: every catalog entry, drawn on pyplot's current
    axes [gca]. *)
Definition hr_diagram_cell (gca : axis) (allstar : list allstar_row) : M unit :=
  emit (Figure 10 10) ;;
  emit (Scatter gca
          (map cell_value (map TEFF allstar))
          (map cell_value (map LOGG allstar))
          (map cell_value (map FE_H allstar))
          "." 1 (-1) (1 # 2) 1 None) ;;
  emit (Colorbar gca "bottom" "Metallicity [Fe/H]") ;;
  emit (SetXLim gca (VFloat (Fin 7000)) (VFloat (Fin 3000))) ;;
  emit (SetYLim gca (VFloat (Fin (11 # 2))) (VFloat (Fin (- (1 # 2))))) ;;
  emit (SetXLabel gca "Effective Temperature [$T_{\rm{eff}}$, K]") ;;
  emit (SetYLabel gca "Surface Gravity [$\log(g)$]") ;;
  emit (Grid gca) ;;
  emit (SetTitle gca "APOGEE Stellar Parameters - allStar") ;;
  emit PltShow.

(** The spectrum cell: it builds the global [apogee_wls] from the header
    of the opened file, plots the masked spectrum on the current axes and
    leaves the grid behind for the later cells. *)
Definition spectrum_cell (gca : axis) (aspcap_star : apogee_spec) : M (list wave) :=
  emit (Figure 15 5) ;;
  let apogee_wls := apogee_wls_of aspcap_star in
  let observed_flux := data (hdu1 aspcap_star) in
  let model_flux := data (hdu3 aspcap_star) in
  let mask := pixel_mask (data (hdu2 aspcap_star)) in
  wls <- lift (mask_index apogee_wls mask) ;;
  obs <- lift (mask_index observed_flux mask) ;;
  emit (Plot gca (map VWave wls) (map VFloat obs) "k" "Observed Spectrum") ;;
  wls' <- lift (mask_index apogee_wls mask) ;;
  mod_ <- lift (mask_index model_flux mask) ;;
  emit (Plot gca (map VWave wls') (map VFloat mod_) "darkred" "Best Fit Model Spectrum") ;;
  emit (SetYLim gca (VFloat (Fin (3 # 5))) (VFloat (Fin (11 # 10)))) ;;
  lo <- lift (np_min apogee_wls) ;;
  hi <- lift (np_max apogee_wls) ;;
  emit (SetXLim gca (VWave lo) (VWave hi)) ;;
  row0 <- lift (getitem (hdu4 aspcap_star) 0) ;;
  let apogee_id := APOGEE_ID row0 in
  emit (SetTitle gca (String.append "APOGEE Spectrum - " apogee_id)) ;;
  emit (SetXLabel gca "Wavelength [$\AA$]") ;;
  emit (SetYLabel gca "Flux") ;;
  emit (Grid gca) ;;
  emit (Legend gca) ;;
  emit PltShow ;;
  ret apogee_wls.

(** ** Further predicates and sample data *)

(** A sample that is neither NaN nor an infinity. *)
Definition is_finite (x : float) : bool :=
  match x with Fin _ => true | _ => false end.

(** The two arrays handed to a [plot] call have one length. *)
Definition plot_shapes_agree (e : event) : Prop :=
  match e with
  | Plot _ x y _ _ => List.length x = List.length y
  | _ => True
  end.

(** The progress lines [plot_variable_star] prints before it plots. *)
Definition progress_lines (apogee_id : string) : list event :=
  [ PrintLine (string_repeat "=" 50);
    PrintLine (String.append "Plotting Spectrum and Light Curve for " apogee_id);
    PrintLine (string_repeat "=" 50);
    PrintLine "Searching For APOGEE Data...";
    PrintLine "Downloading APOGEE Data...";
    PrintLine "Searching For TESS Data...";
    PrintLine "Downloading TESS Data...";
    PrintLine "Making Plot..." ].

(** Sectors with a missing distance in second place. *)
Definition tess_obs_nan_example : list obs_row :=
  [ mk_obs "tess-s0014" (Fin 297) (Fin 43) (Fin (1 # 2));
    mk_obs "tess-s0015" (Fin 297) (Fin 43) NaN;
    mk_obs "tess-s0041" (Fin 297) (Fin 43) (Fin 0) ].

(** An archive that holds both the spectrum and the light curves of the
    Cepheid. *)
Definition archive_example : ArchiveClient :=
  mk_archive
    (fun target_name =>
       Ok [mk_obs (String.append "sdss_apogee_" target_name)
                  (Fin 297) (Fin 43) (Fin 0)])
    (fun ra dec => Ok tess_obs_example)
    (fun obs => Ok [mk_product "product.fits" "ASPCAPSTAR" "Light curves"])
    (fun products filter =>
       Ok [mk_manifest "mastDownload/product.fits" "COMPLETE";
           mk_manifest "mastDownload/other.fits" "COMPLETE"])
    (fun path => Ok aspcap_star_example)
    (fun path => Ok tess_lc_example).

(** A spectrum whose parameter row has too few pipeline-fit parameters. *)
Definition aspcap_short_fparam_example : apogee_spec :=
  mk_spec
    (mk_image (4179 # 1000) (6 # 1000000) 4 [Fin 1; Fin 1; Fin (9 # 10); Fin 1])
    (mk_image 0 0 4 [Fin (2 # 100); Fin (3 # 100); Fin (5 # 100); Fin (1 # 100)])
    (mk_image (4179 # 1000) (6 # 1000000) 4 [Fin 1; Fin 1; Fin 1; Fin 1])
    [mk_aspcap "2M19203184+3830492" [Fin 5800; Fin (42 # 10); Fin 1]].

(** A light curve whose time column holds no defined sample. *)
Definition tess_lc_gap_example : tess_lightcurve :=
  mk_tess "TIC 26544959" [ mk_lc NaN (Fin 1000); mk_lc NaN (Fin 1001) ].

(** One grid wavelength is strictly below another. *)
Definition wave_lt (a b : wave) : Prop := wave_exponent a < wave_exponent b.

(** The scatter call of the composite figure for the catalog. *)
Definition catalog_scatter (allstar : list allstar_row) : event :=
  Scatter ax1
    (map cell_value (slice_step 10 (map TEFF allstar)))
    (map cell_value (slice_step 10 (map LOGG allstar)))
    (map cell_value (slice_step 10 (map FE_H allstar)))
    "." 1 (-1) (1 # 2) 1 None.

(** A catalog in which the Cepheid has a second, later row. *)
Definition allstar_duplicate_example : list allstar_row :=
  [ mk_allstar "V1154_Cyg" (Some (Fin 6012)) (Some (Fin 2)) (Some (Fin (- (1 # 10))));
    mk_allstar "2M19203184+3830492" (Some (Fin 0)) (Some (Fin 4)) (Some (Fin 0));
    mk_allstar "V1154_Cyg" None None None ].

(** ** The wavelength grid in binary64 *)

(** The grid above is computed with exact rationals.  The notebook computes
    it with binary64 numbers; this module follows the same code in that
    arithmetic.  The power [10 ** y] is left to the platform's library, so
    it is a parameter [power10]. *)
Module Binary64.

Import PrimFloat.

#[local] Set Warnings "-inexact-float".

Definition float64 : Type := PrimFloat.float.

(** [float(n)] for a non-negative integer (exact below [2 ** 53]). *)
Definition of_nat (n : nat) : float64 :=
  PrimFloat.of_uint63 (Uint63.of_Z (Z.of_nat n)).

(** [np.linspace(start, stop, num)] with the default [endpoint=True]:
    [arange(0, num)] scaled by [step = delta / div] (or, when that step
    is zero, divided by [div] and scaled by [delta]), shifted by [start],
    the last sample then set to [stop] when [num > 1]. *)
Definition linspace (start stop : float64) (num : nat) : list float64 :=
  let div := (num - 1)%nat in
  let delta := PrimFloat.sub stop start in
  let y := map of_nat (seq 0 num) in
  let y :=
    if (0 <? div)%nat
    then
      let step := PrimFloat.div delta (of_nat div) in
      if PrimFloat.eqb step PrimFloat.zero
      then map (fun v => PrimFloat.mul (PrimFloat.div v (of_nat div)) delta) y
      else map (fun v => PrimFloat.mul v step) y
    else map (fun v => PrimFloat.mul v delta) y in
  let y := map (fun v => PrimFloat.add v start) y in
  if (1 <? num)%nat then firstn div y ++ [stop] else y.

(** [np.logspace(start, stop, num)]: [np.power(10, linspace(...))]. *)
Definition logspace (power10 : float64 -> float64) (start stop : float64) (num : nat)
  : list float64 :=
  map power10 (linspace start stop num).

(** The notebook's [apogee_wls] from the header scalars: [CRVAL1] and
    [CDELT1] of extension 1, [NAXIS1] of extension 3 for the stop and of
    extension 1 for the sample count. *)
Definition apogee_wls (power10 : float64 -> float64) (crval1 cdelt1 : float64)
  (naxis1_hdu3 naxis1_hdu1 : nat) : list float64 :=
  logspace power10 crval1
           (PrimFloat.add crval1 (PrimFloat.mul cdelt1 (of_nat naxis1_hdu3)))
           naxis1_hdu1.

(** The sample a binary64 number is: NaN, an infinity, or the rational it
    denotes. *)
Definition sample (x : float64) : Float.float :=
  match FloatOps.Prim2SF x with
  | SpecFloat.S754_zero _ => Fin 0
  | SpecFloat.S754_infinity false => PInf
  | SpecFloat.S754_infinity true => NInf
  | SpecFloat.S754_nan => NaN
  | SpecFloat.S754_finite s m e =>
      Fin ((if s then - inject_Z (Zpos m) else inject_Z (Zpos m)) * (2 ^ e))
  end.

(** Strictly increasing with the index, for the IEEE order. *)
Definition increasing (l : list float64) : Prop :=
  forall i j x y,
    (i < j)%nat -> nth_error l i = Some x -> nth_error l j = Some y ->
    Float.ltb (sample x) (sample y) = true.

(** Neighbouring samples strictly increase, as a test. *)
Definition adjacent_increasing (l : list float64) : bool :=
  forallb (fun p => Float.ltb (sample (fst p)) (sample (snd p))) (combine l (tl l)).

(** APOGEE's reference value, and a positive step below its resolution. *)
Definition crval1_example : float64 := 4.179%float.
Definition cdelt1_example : float64 := 1e-17%float.

(** APOGEE's step. *)
Definition cdelt1_apogee : float64 := 6e-6%float.

End Binary64.
(** * Properties *)

(** ** Order facts on samples *)

Lemma Qltb_lt (a b : Q) : Qltb a b = true <-> a < b.
Proof.
  unfold Qltb. rewrite negb_true_iff. split; intro H.
  - apply Qnot_le_lt. intro Hle. apply Qle_bool_iff in Hle. congruence.
  - destruct (Qle_bool b a) eqn:E; [|reflexivity].
    apply Qle_bool_iff in E. exfalso. exact (Qlt_not_le _ _ H E).
Qed.

Ltac float_cases :=
  repeat match goal with
         | x : float |- _ => destruct x
         end;
  simpl in *; try discriminate; try reflexivity.

Lemma leb_refl (x : float) : isnan x = false -> leb x x = true.
Proof.
  intros H. float_cases. apply Qle_bool_iff. apply Qle_refl.
Qed.

Lemma leb_trans (x y z : float) :
  leb x y = true -> leb y z = true -> leb x z = true.
Proof.
  intros H1 H2. float_cases.
  apply Qle_bool_iff in H1, H2. apply Qle_bool_iff. eapply Qle_trans; eauto.
Qed.

Lemma ltb_leb (x y : float) : ltb x y = true -> leb x y = true.
Proof.
  intros H. float_cases.
  apply Qltb_lt in H. apply Qle_bool_iff. apply Qlt_le_weak. exact H.
Qed.

Lemma ltb_leb_trans (x y z : float) :
  ltb x y = true -> leb y z = true -> ltb x z = true.
Proof.
  intros H1 H2. float_cases.
  apply Qltb_lt in H1. apply Qle_bool_iff in H2. apply Qltb_lt.
  eapply Qlt_le_trans; eauto.
Qed.

Lemma not_leb_ltb (x y : float) :
  isnan x = false -> isnan y = false -> leb x y = false -> ltb y x = true.
Proof.
  intros Hx Hy H. float_cases.
  unfold Qltb. rewrite H. reflexivity.
Qed.

Lemma leb_total (x y : float) :
  isnan x = false -> isnan y = false -> leb x y = true \/ leb y x = true.
Proof.
  intros Hx Hy. destruct (leb x y) eqn:E; [left; reflexivity|right].
  apply ltb_leb. apply not_leb_ltb; assumption.
Qed.

Lemma leb_nonnan (x y : float) :
  leb x y = true -> isnan x = false /\ isnan y = false.
Proof.
  intros H. float_cases; split; reflexivity.
Qed.

(** ** The closest match (C1) *)

Lemma first_min_keep (pre : list float) (k : nat) (mp x : float) :
  first_min pre k mp -> leb mp x = true -> first_min (pre ++ [x]) k mp.
Proof.
  intros (Hk & Hmin & Hfirst) Hle.
  assert (Hlt : (k < List.length pre)%nat)
    by (apply nth_error_Some; congruence).
  split; [|split].
  - rewrite nth_error_app1; assumption.
  - intros y Hy. apply in_app_or in Hy. destruct Hy as [Hy|[<-|[]]]; auto.
  - intros j y Hj Hnth. rewrite nth_error_app1 in Hnth by lia. eauto.
Qed.

Lemma first_min_take (pre : list float) (k : nat) (mp x : float) :
  first_min pre k mp -> isnan x = false -> leb mp x = false ->
  first_min (pre ++ [x]) (List.length pre) x.
Proof.
  intros (Hk & Hmin & Hfirst) Hx Hle.
  assert (Hmp : isnan mp = false).
  { apply nth_error_In in Hk. apply Hmin in Hk. apply leb_nonnan in Hk. tauto. }
  pose proof (not_leb_ltb mp x Hmp Hx Hle) as Hlt.
  split; [|split].
  - rewrite nth_error_app2 by lia. rewrite Nat.sub_diag. reflexivity.
  - intros y Hy. apply in_app_or in Hy. destruct Hy as [Hy|[<-|[]]].
    + apply ltb_leb. eapply ltb_leb_trans; eauto.
    + apply leb_refl. assumption.
  - intros j y Hj Hnth. rewrite nth_error_app1 in Hnth by lia.
    eapply ltb_leb_trans; [exact Hlt|]. apply Hmin. eapply nth_error_In; eauto.
Qed.

Lemma argmin_loop_spec (rest : list float) :
  Forall (fun x => isnan x = false) rest ->
  forall pre k mp,
    first_min pre k mp ->
    exists m,
      first_min (pre ++ rest) (argmin_loop mp k (List.length pre) rest) m.
Proof.
  induction 1 as [|x rest Hx Hrest IH]; intros pre k mp Hpre.
  - simpl. rewrite app_nil_r. eauto.
  - simpl. rewrite Hx.
    replace (pre ++ x :: rest) with ((pre ++ [x]) ++ rest)
      by (rewrite <- app_assoc; reflexivity).
    replace (S (List.length pre)) with (List.length (pre ++ [x]))
      by (rewrite length_app; simpl; lia).
    destruct (leb mp x) eqn:Hle; simpl.
    + apply IH. apply first_min_keep; assumption.
    + apply IH. apply first_min_take with (k := k) (mp := mp); assumption.
Qed.

Lemma argmin_spec (a : list float) :
  a <> [] ->
  Forall (fun x => isnan x = false) a ->
  exists i m, argmin a = Ok i /\ first_min a i m.
Proof.
  intros Hne Hall. destruct a as [|mp rest]; [congruence|].
  inversion Hall as [|? ? Hmp Hrest]; subst.
  simpl. rewrite Hmp.
  destruct (argmin_loop_spec Hrest (pre := [mp]) (k := 0%nat) (mp := mp)) as [m Hm].
  - split; [reflexivity|split].
    + intros x [<-|[]]. apply leb_refl. assumption.
    + intros j x Hj. lia.
  - exists (argmin_loop mp 0 1 rest), m. split; [reflexivity|exact Hm].
Qed.

(** C1.  On a non-empty table of candidate observations whose distances are
    all numbers, the closest-match selection returns a record of minimal
    distance (no record is closer), and every record before it in input
    order is strictly farther: among records tied at the minimum, at
    distance 0 or not, the first one is returned. *)
Theorem closest_match_first_minimum (tess_obs : list obs_row) :
  tess_obs <> [] ->
  Forall (fun r => isnan (distance r) = false) tess_obs ->
  exists i r,
    argmin (map distance tess_obs) = Ok i /\
    closest_match tess_obs = Ok r /\
    nth_error tess_obs i = Some r /\
    (forall r', In r' tess_obs -> leb (distance r) (distance r') = true) /\
    (forall j r', (j < i)%nat -> nth_error tess_obs j = Some r' ->
                  ltb (distance r) (distance r') = true).
Proof.
  intros Hne Hall.
  destruct (argmin_spec (a := map distance tess_obs)) as (i & m & Hi & Hk & Hmin & Hfirst).
  - destruct tess_obs; [congruence|discriminate].
  - apply Forall_map. exact Hall.
  - rewrite nth_error_map in Hk.
    destruct (nth_error tess_obs i) as [r|] eqn:Hr; [|discriminate].
    simpl in Hk. injection Hk as <-.
    exists i, r. split; [exact Hi|]. split; [|split; [exact Hr|split]].
    + unfold closest_match, getitem. rewrite Hi. simpl. rewrite Hr. reflexivity.
    + intros r' Hin. apply Hmin. apply in_map. exact Hin.
    + intros j r' Hj Hnth. apply (Hfirst j); [exact Hj|].
      rewrite nth_error_map, Hnth. reflexivity.
Qed.

Lemma closest_match_first_minimum_witness :
  exists i r,
    argmin (map distance tess_obs_example) = Ok i /\
    closest_match tess_obs_example = Ok r /\
    nth_error tess_obs_example i = Some r /\
    (forall r', In r' tess_obs_example -> leb (distance r) (distance r') = true) /\
    (forall j r', (j < i)%nat -> nth_error tess_obs_example j = Some r' ->
                  ltb (distance r) (distance r') = true).
Proof.
  apply (closest_match_first_minimum (tess_obs := tess_obs_example)).
  - discriminate.
  - repeat constructor.
Defined.

(** A NaN distance would be taken as the minimum: the reason the
    distances are required to be numbers. *)
Example argmin_nan_example :
  argmin [Fin 1; NaN; Fin 0] = Ok 1%nat.
Proof. reflexivity. Qed.

Example closest_match_example :
  closest_match tess_obs_example
  = Ok (mk_obs "tess-s0014" (Fin 297) (Fin 43) (Fin 0)).
Proof. reflexivity. Qed.

(** ** The wavelength grid (C2) *)

Lemma nth_error_Some_lt {A} (l : list A) (n : nat) (x : A) :
  nth_error l n = Some x -> (n < List.length l)%nat.
Proof.
  intros H. apply nth_error_Some. congruence.
Qed.

Lemma linspace_length (start stop : Q) (num : nat) :
  List.length (linspace start stop num) = num.
Proof.
  unfold linspace. destruct (1 <? num)%nat eqn:E.
  - apply Nat.ltb_lt in E.
    rewrite length_app, length_firstn, length_map, length_seq. simpl. lia.
  - rewrite length_map, length_seq. reflexivity.
Qed.

(** The samples of a grid of two points or more: evenly spaced ones, then
    the stop itself. *)
Lemma linspace_nth (start stop : Q) (num i : nat) :
  (1 < num)%nat -> (i < num)%nat ->
  nth_error (linspace start stop num) i
  = Some (if (i <? num - 1)%nat
          then inject_Z (Z.of_nat i)
               * ((stop - start) / inject_Z (Z.of_nat (num - 1))) + start
          else stop).
Proof.
  intros Hnum Hi. unfold linspace.
  assert (E1 : (1 <? num)%nat = true) by (apply Nat.ltb_lt; lia).
  assert (E2 : (0 <? num - 1)%nat = true) by (apply Nat.ltb_lt; lia).
  rewrite E1, E2.
  set (y := map _ (seq 0 num)).
  assert (Hlen : List.length (firstn (num - 1) y) = (num - 1)%nat).
  { rewrite length_firstn. unfold y. rewrite length_map, length_seq. lia. }
  destruct (i <? num - 1)%nat eqn:Ei.
  - rewrite nth_error_app1 by (rewrite Hlen; apply Nat.ltb_lt; exact Ei).
    rewrite nth_error_firstn, Ei. unfold y.
    rewrite nth_error_map, nth_error_seq.
    assert (Ein : (i <? num)%nat = true) by (apply Nat.ltb_lt; lia).
    rewrite Ein. reflexivity.
  - apply Nat.ltb_ge in Ei.
    rewrite nth_error_app2 by (rewrite Hlen; exact Ei).
    rewrite Hlen.
    replace (i - (num - 1))%nat with 0%nat by lia. reflexivity.
Qed.

Lemma linspace_increasing (start stop : Q) (num i j : nat) (yi yj : Q) :
  start < stop -> (i < j)%nat ->
  nth_error (linspace start stop num) i = Some yi ->
  nth_error (linspace start stop num) j = Some yj ->
  yi < yj.
Proof.
  intros Hlt Hij Hi Hj.
  assert (Hjn : (j < num)%nat).
  { rewrite <- (linspace_length start stop num). apply nth_error_Some. congruence. }
  rewrite linspace_nth in Hi, Hj by lia.
  injection Hi as <-. injection Hj as <-.
  set (D := inject_Z (Z.of_nat (num - 1))).
  set (s := (stop - start) / D).
  assert (HD : 0 < D).
  { unfold D. change 0 with (inject_Z 0). rewrite <- Zlt_Qlt. lia. }
  assert (Hs : 0 < s).
  { unfold s. apply Qlt_shift_div_l; [exact HD|]. lra. }
  assert (HDs : D * s == stop - start).
  { unfold s. apply Qmult_div_r. intro H0. rewrite H0 in HD.
    exact (Qlt_irrefl _ HD). }
  assert (Ei : (i <? num - 1)%nat = true) by (apply Nat.ltb_lt; lia).
  rewrite Ei.
  destruct (j <? num - 1)%nat eqn:Ej.
  - assert (Hq : inject_Z (Z.of_nat i) < inject_Z (Z.of_nat j))
      by (rewrite <- Zlt_Qlt; lia).
    pose proof (Qmult_lt_compat_r _ _ s Hs Hq). lra.
  - assert (Hq : inject_Z (Z.of_nat i) + 1 <= D).
    { unfold D. change 1 with (inject_Z 1).
      rewrite <- inject_Z_plus, <- Zle_Qle.
      apply Nat.ltb_lt in Ei. lia. }
    pose proof (Qmult_le_compat_r _ _ s Hq (Qlt_le_weak _ _ Hs)) as Hm.
    lra.
Qed.

Lemma wave_val_increasing (a b : wave) :
  wave_exponent a < wave_exponent b -> (wave_val a < wave_val b)%R.
Proof.
  intros H. unfold wave_val. apply Rpower_lt; [lra|]. apply Qlt_Rlt. exact H.
Qed.

(** The grid comparison used by [np.min]/[np.max] is the order of the
    wavelengths denoted. *)
Lemma wave_leb_val (a b : wave) :
  wave_leb a b = true <-> (wave_val a <= wave_val b)%R.
Proof.
  unfold wave_leb. rewrite Qle_bool_iff. split; intro H.
  - apply Qle_lteq in H. destruct H as [H|H].
    + apply Rlt_le. apply wave_val_increasing. exact H.
    + unfold wave_val. rewrite (Qeq_eqR _ _ H). apply Rle_refl.
  - apply Qnot_lt_le. intro Hlt. apply wave_val_increasing in Hlt. lra.
Qed.

(** In exact arithmetic, for a header triplet (CRVAL1, CDELT1, NAXIS1)
    with a positive step, NAXIS1 being the pixel count of both extensions
    read, the grid has NAXIS1 wavelengths and they are strictly increasing
    with the pixel index. *)
Lemma apogee_wls_exact_increasing (aspcap_star : apogee_spec) :
  0 < CDELT1 (hdu1 aspcap_star) ->
  NAXIS1 (hdu3 aspcap_star) = NAXIS1 (hdu1 aspcap_star) ->
  List.length (apogee_wls_of aspcap_star) = NAXIS1 (hdu1 aspcap_star) /\
  forall i j wi wj,
    (i < j)%nat ->
    nth_error (apogee_wls_of aspcap_star) i = Some wi ->
    nth_error (apogee_wls_of aspcap_star) j = Some wj ->
    (wave_val wi < wave_val wj)%R.
Proof.
  intros Hstep Hn. unfold apogee_wls_of, logspace. rewrite Hn. split.
  - rewrite length_map. apply linspace_length.
  - intros i j wi wj Hij Hi Hj.
    rewrite nth_error_map in Hi, Hj.
    destruct (nth_error _ i) as [yi|] eqn:Eyi; [|discriminate].
    destruct (nth_error _ j) as [yj|] eqn:Eyj; [|discriminate].
    simpl in Hi, Hj. injection Hi as <-. injection Hj as <-.
    apply wave_val_increasing. simpl.
    assert (Hjn : (j < NAXIS1 (hdu1 aspcap_star))%nat).
    { apply nth_error_Some_lt in Eyj. rewrite linspace_length in Eyj. exact Eyj. }
    eapply linspace_increasing; [|exact Hij|exact Eyi|exact Eyj].
    assert (Hpos : 0 < inject_Z (Z.of_nat (NAXIS1 (hdu1 aspcap_star)))).
    { change 0 with (inject_Z 0). rewrite <- Zlt_Qlt. lia. }
    pose proof (Qmult_lt_compat_r _ _ _ Hpos Hstep) as Hm.
    rewrite Qmult_0_l in Hm. lra.
Qed.

Example linspace_example :
  map Qred (linspace 0 1 5) = [0; 1 # 4; 1 # 2; 3 # 4; 1].
Proof. reflexivity. Qed.

Lemma ltb_irrefl (x : float) : ltb x x = false.
Proof.
  destruct x; try reflexivity. simpl. unfold Qltb.
  apply negb_false_iff, Qle_bool_iff, Qle_refl.
Qed.

Lemma binary64_linspace_length (start stop : Binary64.float64) (num : nat) :
  List.length (Binary64.linspace start stop num) = num.
Proof.
  unfold Binary64.linspace.
  destruct (0 <? num - 1)%nat;
    [destruct (PrimFloat.eqb _ _)|];
    (destruct (1 <? num)%nat eqn:E;
     [apply Nat.ltb_lt in E;
      rewrite length_app, length_firstn, !length_map, length_seq; simpl; lia
     |rewrite !length_map, length_seq; reflexivity]).
Qed.


(** With APOGEE's own header values (CRVAL1 = 4.179, CDELT1 = 6e-6,
    NAXIS1 = 8575) the binary64 exponents do increase from each pixel to
    the next. *)
Example binary64_apogee_exponents_increase :
  Binary64.adjacent_increasing
    (Binary64.linspace Binary64.crval1_example
       (PrimFloat.add Binary64.crval1_example
          (PrimFloat.mul Binary64.cdelt1_apogee
             (Binary64.of_nat (Z.to_nat 8575))))
       (Z.to_nat 8575))
  = true.
Proof. vm_compute. reflexivity. Qed.



(** ** Running effectful code *)

Lemma trace_bind {A B} (m : M A) (k : A -> M B) :
  trace (bind m k)
  = trace m ++ match outcome m with
               | Ok a => trace (k a)
               | Raise _ => []
               end.
Proof.
  destruct m as [t [a|e]]; simpl.
  - destruct (k a); reflexivity.
  - rewrite app_nil_r. reflexivity.
Qed.

Lemma outcome_bind {A B} (m : M A) (k : A -> M B) :
  outcome (bind m k)
  = match outcome m with
    | Ok a => outcome (k a)
    | Raise e => Raise e
    end.
Proof.
  destruct m as [t [a|e]]; simpl; [destruct (k a)|]; reflexivity.
Qed.

Lemma trace_emit (e : event) : trace (emit e) = [e].
Proof. reflexivity. Qed.

Lemma outcome_emit (e : event) : outcome (emit e) = Ok tt.
Proof. reflexivity. Qed.

Lemma trace_lift {A} (r : result A) : trace (lift r) = [].
Proof. reflexivity. Qed.

Lemma outcome_lift {A} (r : result A) : outcome (lift r) = r.
Proof. reflexivity. Qed.

Lemma trace_ret {A} (a : A) : trace (ret a) = [].
Proof. reflexivity. Qed.

Lemma outcome_ret {A} (a : A) : outcome (ret a) = Ok a.
Proof. reflexivity. Qed.

Lemma for_each_emit {A} (f : A -> event) (l : list A) :
  for_each l (fun x => emit (f x)) = (map f l, Ok tt).
Proof.
  induction l as [|x l IH]; simpl; [reflexivity|].
  rewrite IH. reflexivity.
Qed.

Create Rewrite HintDb run.
#[local] Hint Rewrite @trace_bind @outcome_bind trace_emit outcome_emit
  @trace_lift @outcome_lift @trace_ret @outcome_ret : run.

(** Step through a run: split every sequence, then decide the fallible
    steps one by one. *)
Ltac run_steps := repeat (progress (autorewrite with run; simpl)).

Ltac run_cases :=
  repeat (run_steps;
          match goal with
          | |- context [match ?r with Ok _ => _ | Raise _ => _ end] =>
              destruct r eqn:?
          end);
  run_steps.

(** ** The pixel mask (C3) *)

Lemma kept_from_In (mask : list bool) (s i : nat) :
  In i (kept_from s mask)
  <-> (s <= i)%nat /\ nth_error mask (i - s) = Some true.
Proof.
  revert s. induction mask as [|m mask IH]; intros s; simpl.
  - split; [tauto|]. intros [_ H]. destruct (i - s)%nat; discriminate.
  - assert (Hrec : In i (kept_from (S s) mask)
                   <-> (s < i)%nat /\ nth_error (m :: mask) (i - s) = Some true).
    { rewrite IH. split; intros [Hle H]; (split; [lia|]).
      - replace (i - s)%nat with (S (i - S s)) by lia. exact H.
      - replace (i - s)%nat with (S (i - S s)) in H by lia. exact H. }
    destruct m; simpl; rewrite ?Hrec.
    + split.
      * intros [<-|[Hlt H]]; [|split; [lia|exact H]].
        split; [lia|]. rewrite Nat.sub_diag. reflexivity.
      * intros [Hle H]. destruct (Nat.eq_dec s i) as [->|Hne]; [left; reflexivity|].
        right. split; [lia|exact H].
    + split.
      * intros [Hlt H]. split; [lia|exact H].
      * intros [Hle H]. split; [|exact H].
        destruct (Nat.eq_dec s i) as [->|Hne]; [|lia].
        rewrite Nat.sub_diag in H. discriminate.
Qed.

Lemma kept_from_sorted (mask : list bool) (s : nat) :
  StronglySorted lt (kept_from s mask).
Proof.
  revert s. induction mask as [|m mask IH]; intros s; simpl.
  - constructor.
  - destruct m; [|apply IH]. constructor; [apply IH|].
    apply Forall_forall. intros i Hi. apply kept_from_In in Hi. lia.
Qed.

Lemma compress_nth {A} (mask : list bool) (a : list A) (s k : nat) :
  List.length a = List.length mask ->
  nth_error (compress mask a) k
  = match nth_error (kept_from s mask) k with
    | Some i => nth_error a (i - s)
    | None => None
    end.
Proof.
  revert a s k. induction mask as [|m mask IH]; intros a s k Hlen.
  - destruct a; [|discriminate]. destruct k; reflexivity.
  - destruct a as [|x a]; [discriminate|]. simpl in Hlen.
    injection Hlen as Hlen. simpl.
    pose proof (IH a (S s)) as IH'.
    assert (Hshift : forall k',
               nth_error (compress mask a) k'
               = match nth_error (kept_from (S s) mask) k' with
                 | Some i => nth_error (x :: a) (i - s)
                 | None => None
                 end).
    { intros k'. rewrite (IH' k' Hlen).
      destruct (nth_error (kept_from (S s) mask) k') as [i|] eqn:E; [|reflexivity].
      apply nth_error_In, kept_from_In in E.
      replace (i - s)%nat with (S (i - S s)) by lia. reflexivity. }
    destruct m.
    + destruct k as [|k]; simpl.
      * rewrite Nat.sub_diag. reflexivity.
      * apply Hshift.
    + apply Hshift.
Qed.

Lemma compress_length {A} (mask : list bool) (a : list A) :
  List.length a = List.length mask ->
  List.length (compress mask a) = List.length (filter (fun b => b) mask).
Proof.
  revert a. induction mask as [|m mask IH]; intros a Hlen.
  - destruct a; reflexivity.
  - destruct a as [|x a]; [discriminate|]. injection Hlen as Hlen.
    destruct m; simpl; rewrite (IH a Hlen); reflexivity.
Qed.

Lemma pixel_mask_count (err : list float) :
  List.length (filter (fun b => b) (pixel_mask err))
  = List.length (filter (fun e => ltb e pixel_threshold) err).
Proof.
  unfold pixel_mask. induction err as [|e err IH]; [reflexivity|].
  simpl. destruct (ltb e pixel_threshold); simpl; rewrite IH; reflexivity.
Qed.

Lemma mask_index_ok {A} (a : list A) (mask : list bool) :
  List.length a = List.length mask ->
  mask_index a mask = Ok (compress mask a).
Proof.
  intros H. unfold mask_index. rewrite H, Nat.eqb_refl. reflexivity.
Qed.

Lemma masked_series {A} (a : list A) (err : list float) :
  List.length a = List.length err ->
  mask_index a (pixel_mask err) = Ok (compress (pixel_mask err) a) /\
  List.length (compress (pixel_mask err) a)
  = List.length (filter (fun e => ltb e pixel_threshold) err) /\
  forall k, nth_error (compress (pixel_mask err) a) k
            = pick a (nth_error (np_where (pixel_mask err)) k).
Proof.
  intros H.
  assert (Hm : List.length a = List.length (pixel_mask err))
    by (unfold pixel_mask; rewrite length_map; exact H).
  split; [apply mask_index_ok; exact Hm|]. split.
  - rewrite compress_length by exact Hm. apply pixel_mask_count.
  - intros k. unfold np_where. rewrite (compress_nth _ _ 0 k Hm).
    destruct (nth_error (kept_from 0 (pixel_mask err)) k); simpl;
      [rewrite Nat.sub_0_r|]; reflexivity.
Qed.

(** C3.  When the wavelength, observed, model and uncertainty arrays have
    one length, the spectrum panel plots exactly two series, the observed
    and the model flux; both have as many points as there are pixels whose
    uncertainty is strictly below 0.1; the k-th point plotted is the pixel
    at the k-th kept position; and the kept positions are, in increasing
    order, exactly those of the pixels strictly below the threshold, so no
    pixel at or above it (or with a NaN uncertainty) is plotted. *)
Theorem spectrum_panel_pixel_mask (apogee_wls : list wave) (spec : apogee_spec) :
  let err := data (hdu2 spec) in
  let kept := np_where (pixel_mask err) in
  let n := List.length (filter (fun e => ltb e pixel_threshold) err) in
  List.length apogee_wls = List.length err ->
  List.length (data (hdu1 spec)) = List.length err ->
  List.length (data (hdu3 spec)) = List.length err ->
  exists xs ys ms,
    filter is_plot (trace (spectrum_panel apogee_wls spec))
    = [Plot ax2 (map VWave xs) (map VFloat ys) "k" "Observed Spectrum";
       Plot ax2 (map VWave xs) (map VFloat ms) "darkred" "Best Fit Model Spectrum"] /\
    List.length xs = n /\ List.length ys = n /\ List.length ms = n /\
    (forall k, nth_error xs k = pick apogee_wls (nth_error kept k)) /\
    (forall k, nth_error ys k = pick (data (hdu1 spec)) (nth_error kept k)) /\
    (forall k, nth_error ms k = pick (data (hdu3 spec)) (nth_error kept k)) /\
    StronglySorted lt kept /\
    (forall i, In i kept
               <-> exists e, nth_error err i = Some e /\ ltb e pixel_threshold = true).
Proof.
  intros err kept n Hw Ho Hm.
  destruct (masked_series apogee_wls err Hw) as (Ew & Lw & Nw).
  destruct (masked_series (data (hdu1 spec)) err Ho) as (Eo & Lo & No).
  destruct (masked_series (data (hdu3 spec)) err Hm) as (Em & Lm & Nm).
  exists (compress (pixel_mask err) apogee_wls),
         (compress (pixel_mask err) (data (hdu1 spec))),
         (compress (pixel_mask err) (data (hdu3 spec))).
  split; [|repeat split; try assumption].
  - unfold spectrum_panel. fold err. rewrite Ew, Eo, Em.
    run_cases; reflexivity.
  - apply kept_from_sorted.
  - intros Hi. apply kept_from_In in Hi. destruct Hi as [_ Hi].
    rewrite Nat.sub_0_r in Hi. unfold pixel_mask in Hi.
    rewrite nth_error_map in Hi.
    destruct (nth_error err i) as [e|]; [|discriminate].
    exists e. split; [reflexivity|]. simpl in Hi. congruence.
  - intros (e & He & Hlt). apply kept_from_In. split; [lia|].
    rewrite Nat.sub_0_r. unfold pixel_mask. rewrite nth_error_map, He.
    simpl. rewrite Hlt. reflexivity.
Qed.

(** With arrays of different lengths the boolean index is refused. *)
Example spectrum_panel_shape_mismatch :
  outcome (spectrum_panel [Pow10 4; Pow10 5] aspcap_star_example)
  = Raise (IndexError "boolean index did not match indexed array along axis 0").
Proof. reflexivity. Qed.

Lemma spectrum_panel_pixel_mask_witness :
  exists xs ys ms,
    filter is_plot (trace (spectrum_panel (apogee_wls_of aspcap_star_example)
                                          aspcap_star_example))
    = [Plot ax2 (map VWave xs) (map VFloat ys) "k" "Observed Spectrum";
       Plot ax2 (map VWave xs) (map VFloat ms) "darkred" "Best Fit Model Spectrum"] /\
    List.length xs = 2%nat /\ List.length ys = 2%nat /\ List.length ms = 2%nat /\
    (forall k, nth_error xs k
               = pick (apogee_wls_of aspcap_star_example) (nth_error [0; 2]%nat k)) /\
    (forall k, nth_error ys k
               = pick (data (hdu1 aspcap_star_example)) (nth_error [0; 2]%nat k)) /\
    (forall k, nth_error ms k
               = pick (data (hdu3 aspcap_star_example)) (nth_error [0; 2]%nat k)) /\
    StronglySorted lt [0; 2]%nat /\
    (forall i, In i [0; 2]%nat
               <-> exists e, nth_error (data (hdu2 aspcap_star_example)) i = Some e
                             /\ ltb e pixel_threshold = true).
Proof.
  apply (spectrum_panel_pixel_mask (apogee_wls_of aspcap_star_example)
                                   aspcap_star_example);
    reflexivity.
Defined.

(** ** The light-curve gridlines (C7) *)

Section NanReduce.

(** [fmin] and [fmax] are one selection, on [<=] and on [>=]. *)
Variable le : float -> float -> bool.
Hypothesis le_refl : forall x, isnan x = false -> le x x = true.
Hypothesis le_trans : forall x y z, le x y = true -> le y z = true -> le x z = true.
Hypothesis le_total :
  forall x y, isnan x = false -> isnan y = false -> le x y = true \/ le y x = true.

Lemma sel_defined (x y : float) :
  isnan x = false -> isnan y = false ->
  isnan (sel le x y) = false /\ (sel le x y = x \/ sel le x y = y) /\
  le (sel le x y) x = true /\ le (sel le x y) y = true.
Proof.
  intros Hx Hy. unfold sel. rewrite Hx, Hy.
  destruct (le x y) eqn:E.
  - repeat split; auto.
  - repeat split; auto.
    destruct (le_total x y Hx Hy) as [H|H]; [congruence|exact H].
Qed.

Lemma fold_sel_skip_nan (l : list float) (acc : float) :
  isnan acc = false ->
  fold_left (sel le) l acc = fold_left (sel le) (defined l) acc.
Proof.
  revert acc. induction l as [|x l IH]; intros acc Hacc; [reflexivity|].
  simpl. destruct (isnan x) eqn:Hx; simpl.
  - unfold sel at 2. rewrite Hx. apply IH. exact Hacc.
  - apply IH. apply sel_defined; assumption.
Qed.

Lemma fold_sel_from_nan (l : list float) :
  fold_left (sel le) l NaN
  = match defined l with
    | [] => NaN
    | y :: rest => fold_left (sel le) rest y
    end.
Proof.
  induction l as [|x l IH]; [reflexivity|].
  simpl. destruct (isnan x) eqn:Hx; simpl.
  - unfold sel at 2. rewrite Hx. exact IH.
  - unfold sel at 2. rewrite Hx. simpl. apply fold_sel_skip_nan. exact Hx.
Qed.

(** Reducing an array that has a defined sample is reducing its defined
    samples. *)
Lemma reduce_defined (x : float) (rest : list float) :
  defined (x :: rest) <> [] ->
  exists y ys, defined (x :: rest) = y :: ys /\
               fold_left (sel le) rest x = fold_left (sel le) ys y.
Proof.
  intros Hne. unfold defined in *. simpl in *.
  destruct (isnan x) eqn:Hx; simpl in *.
  - destruct x; try discriminate. rewrite fold_sel_from_nan. unfold defined.
    destruct (filter _ rest) as [|y ys]; [congruence|]. eauto.
  - exists x, (filter (fun x => negb (isnan x)) rest). split; [reflexivity|].
    apply fold_sel_skip_nan. exact Hx.
Qed.

Lemma fold_sel_extreme (l : list float) (acc : float) :
  isnan acc = false -> Forall (fun x => isnan x = false) l ->
  let m := fold_left (sel le) l acc in
  In m (acc :: l) /\ forall x, In x (acc :: l) -> le m x = true.
Proof.
  intros Hacc Hall. revert acc Hacc.
  induction Hall as [|x l Hx Hall IH]; intros acc Hacc; simpl.
  - split; [left; reflexivity|]. intros x [<-|[]]. apply le_refl. exact Hacc.
  - destruct (sel_defined acc x Hacc Hx) as (Hd & Hor & Hla & Hlx).
    destruct (IH (sel le acc x) Hd) as [Hin Hmin]. simpl in Hin, Hmin.
    split.
    + destruct Hin as [Hin|Hin]; [|right; right; exact Hin].
      rewrite <- Hin. destruct Hor as [->| ->]; [left|right; left]; reflexivity.
    + intros y [<-|[<-|Hy]].
      * eapply le_trans; [apply Hmin; left; reflexivity|exact Hla].
      * eapply le_trans; [apply Hmin; left; reflexivity|exact Hlx].
      * apply Hmin. right. exact Hy.
Qed.

End NanReduce.

Lemma defined_In (a : list float) (x : float) :
  In x (defined a) <-> In x a /\ isnan x = false.
Proof.
  unfold defined. rewrite filter_In, negb_true_iff. reflexivity.
Qed.

Lemma defined_Forall (a : list float) :
  Forall (fun x => isnan x = false) (defined a).
Proof.
  apply Forall_forall. intros x Hx. apply defined_In in Hx. tauto.
Qed.

Lemma fmin_sel : fmin = sel leb.
Proof. reflexivity. Qed.

Lemma fmax_sel : fmax = sel (fun x y => leb y x).
Proof. reflexivity. Qed.

Lemma nanmin_defined (a : list float) :
  defined a <> [] ->
  exists lo, nanmin a = Ok lo /\ nanmin (defined a) = Ok lo /\
             In lo (defined a) /\ forall x, In x (defined a) -> leb lo x = true.
Proof.
  intros Hne. destruct a as [|x rest]; [exfalso; apply Hne; reflexivity|].
  destruct (reduce_defined leb leb_refl leb_total x rest Hne) as (y & ys & Hd & Hfold).
  pose proof (defined_Forall (x :: rest)) as Hall. rewrite Hd in *.
  inversion Hall as [|? ? Hy Hys]; subst.
  destruct (fold_sel_extreme leb leb_refl leb_trans leb_total y Hy Hys) as [Hin Hmin].
  exists (fold_left fmin ys y). simpl. rewrite fmin_sel, Hfold. auto.
Qed.

Lemma nanmax_defined (a : list float) :
  defined a <> [] ->
  exists hi, nanmax a = Ok hi /\ nanmax (defined a) = Ok hi /\
             In hi (defined a) /\ forall x, In x (defined a) -> leb x hi = true.
Proof.
  intros Hne. destruct a as [|x rest]; [exfalso; apply Hne; reflexivity|].
  set (ge := fun x y => leb y x).
  assert (ge_refl : forall x, isnan x = false -> ge x x = true)
    by (intros; apply leb_refl; assumption).
  assert (ge_trans : forall x y z, ge x y = true -> ge y z = true -> ge x z = true)
    by (unfold ge; intros; eapply leb_trans; eauto).
  assert (ge_total : forall x y, isnan x = false -> isnan y = false ->
                                 ge x y = true \/ ge y x = true)
    by (unfold ge; intros; apply leb_total; assumption).
  destruct (reduce_defined ge ge_refl ge_total x rest Hne) as (y & ys & Hd & Hfold).
  pose proof (defined_Forall (x :: rest)) as Hall. rewrite Hd in *.
  inversion Hall as [|? ? Hy Hys]; subst.
  destruct (fold_sel_extreme ge ge_refl ge_trans ge_total y Hy Hys) as [Hin Hmax].
  exists (fold_left fmax ys y). simpl. rewrite fmax_sel. fold ge. rewrite Hfold. auto.
Qed.

Lemma In_range (a b i : Z) : In i (range a b) <-> (a <= i < b)%Z.
Proof.
  unfold range. rewrite in_map_iff. split.
  - intros (k & <- & Hk). apply in_seq in Hk. lia.
  - intros H. exists (Z.to_nat (i - a)). split; [lia|]. apply in_seq. lia.
Qed.

(** C7.  When the time column has at least one defined sample, [nanmin] and
    [nanmax] return the least and the greatest of the defined samples, the
    days at which gridlines are drawn are those computed from the defined
    samples alone, from the truncated least day up to (not including) the
    truncated greatest day, and the panel draws one line at each. *)
Theorem lightcurve_gridlines_exclude_nan (tess_lc : tess_lightcurve) :
  let time := map TIME (LIGHTCURVE tess_lc) in
  defined time <> [] ->
  exists lo hi,
    nanmin time = Ok lo /\ nanmax time = Ok hi /\
    In lo (defined time) /\ In hi (defined time) /\
    (forall x, In x (defined time) -> leb lo x = true /\ leb x hi = true) /\
    gridlines time = gridlines (defined time) /\
    gridlines time
    = rbind (to_int lo) (fun a => rbind (to_int hi) (fun b => Ok (range a b))) /\
    (forall days, gridlines time = Ok days ->
       filter is_axvline (trace (lightcurve_panel tess_lc))
       = map (fun i => AxVLine ax3 i "lightgrey") days).
Proof.
  intros time Hne.
  destruct (nanmin_defined time Hne) as (lo & Hlo & Hlo' & Hlo_in & Hlo_min).
  destruct (nanmax_defined time Hne) as (hi & Hhi & Hhi' & Hhi_in & Hhi_max).
  exists lo, hi. repeat split; auto.
  - unfold gridlines. rewrite Hlo, Hlo', Hhi, Hhi'. reflexivity.
  - unfold gridlines. rewrite Hlo, Hhi. simpl. destruct (to_int lo); reflexivity.
  - intros days Hdays. unfold lightcurve_panel. fold time. rewrite Hdays.
    run_steps. rewrite for_each_emit. simpl.
    rewrite filter_app. simpl. rewrite app_nil_r.
    clear Hdays. induction days as [|d days IH]; simpl; [reflexivity|].
    f_equal. exact IH.
Qed.

Lemma lightcurve_gridlines_exclude_nan_witness :
  exists lo hi,
    nanmin (map TIME (LIGHTCURVE tess_lc_example)) = Ok lo /\
    nanmax (map TIME (LIGHTCURVE tess_lc_example)) = Ok hi /\
    In lo (defined (map TIME (LIGHTCURVE tess_lc_example))) /\
    In hi (defined (map TIME (LIGHTCURVE tess_lc_example))) /\
    (forall x, In x (defined (map TIME (LIGHTCURVE tess_lc_example))) ->
               leb lo x = true /\ leb x hi = true) /\
    gridlines (map TIME (LIGHTCURVE tess_lc_example))
    = gridlines (defined (map TIME (LIGHTCURVE tess_lc_example))) /\
    gridlines (map TIME (LIGHTCURVE tess_lc_example))
    = rbind (to_int lo) (fun a => rbind (to_int hi) (fun b => Ok (range a b))) /\
    (forall days, gridlines (map TIME (LIGHTCURVE tess_lc_example)) = Ok days ->
       filter is_axvline (trace (lightcurve_panel tess_lc_example))
       = map (fun i => AxVLine ax3 i "lightgrey") days).
Proof.
  apply (lightcurve_gridlines_exclude_nan tess_lc_example).
  discriminate.
Defined.

Example gridlines_example :
  gridlines (map TIME (LIGHTCURVE tess_lc_example)) = Ok [1711; 1712; 1713]%Z.
Proof. reflexivity. Qed.

(** ** The composite plot builder *)

Ltac panel_steps := run_steps; rewrite ?for_each_emit; simpl.

Ltac run_panel :=
  repeat (panel_steps;
          match goal with
          | |- context [match ?r with Ok _ => _ | Raise _ => _ end] =>
              destruct r eqn:?
          | |- context [if cell_truthy ?c then _ else _] =>
              destruct (cell_truthy c) eqn:?
          end);
  panel_steps.

Lemma flat_map_map_nil {A B C} (f : B -> list C) (g : A -> B) (l : list A) :
  (forall x, f (g x) = []) -> flat_map f (map g l) = [].
Proof.
  intros H. induction l as [|x l IH]; simpl; [reflexivity|].
  rewrite H, IH. reflexivity.
Qed.

Lemma artifacts_app (t1 t2 : list event) :
  artifacts (t1 ++ t2) = artifacts t1 ++ artifacts t2.
Proof. apply flat_map_app. Qed.

Lemma titles_app (t1 t2 : list event) :
  titles (t1 ++ t2) = titles t1 ++ titles t2.
Proof. apply flat_map_app. Qed.

Lemma artifacts_axvlines (days : list Z) :
  artifacts (map (fun i => AxVLine ax3 i "lightgrey") days) = [].
Proof. apply flat_map_map_nil. reflexivity. Qed.

Lemma titles_axvlines (days : list Z) :
  titles (map (fun i => AxVLine ax3 i "lightgrey") days) = [].
Proof. apply flat_map_map_nil. reflexivity. Qed.

Section PlotBuilderFacts.

Variable allstar : list allstar_row.
Variable apogee_wls : list wave.

(** No panel writes a file. *)
Lemma population_panel_artifacts (spec : apogee_spec) :
  artifacts (trace (population_panel allstar spec)) = [].
Proof.
  unfold population_panel. run_panel; reflexivity.
Qed.

Lemma spectrum_panel_artifacts (spec : apogee_spec) :
  artifacts (trace (spectrum_panel apogee_wls spec)) = [].
Proof.
  unfold spectrum_panel. run_panel; reflexivity.
Qed.

Lemma lightcurve_panel_artifacts (tess_lc : tess_lightcurve) :
  artifacts (trace (lightcurve_panel tess_lc)) = [].
Proof.
  unfold lightcurve_panel. run_panel; try reflexivity.
  rewrite artifacts_app, artifacts_axvlines. reflexivity.
Qed.

(** The title each panel ends with. *)
Lemma population_panel_titles (spec : apogee_spec) :
  outcome (population_panel allstar spec) = Ok tt ->
  titles (trace (population_panel allstar spec))
  = [(ax1, "APOGEE Stellar Parameters - allStar")].
Proof.
  unfold population_panel. run_panel; intros H; try discriminate; reflexivity.
Qed.

Lemma spectrum_panel_titles (spec : apogee_spec) (apogee_id : string) :
  outcome (spectrum_panel apogee_wls spec) = Ok apogee_id ->
  exists row0,
    nth_error (hdu4 spec) 0 = Some row0 /\ apogee_id = APOGEE_ID row0 /\
    titles (trace (spectrum_panel apogee_wls spec))
    = [(ax2, String.append "APOGEE Spectrum - " apogee_id)].
Proof.
  unfold spectrum_panel, getitem.
  destruct (nth_error (hdu4 spec) 0) as [row0|];
    run_panel; intros H; try discriminate.
  injection H as <-. exists row0. auto.
Qed.

Lemma lightcurve_panel_titles (tess_lc : tess_lightcurve) :
  outcome (lightcurve_panel tess_lc) = Ok tt ->
  titles (trace (lightcurve_panel tess_lc))
  = [(ax3, String.append "TESS-SPOC Light Curve - " (OBJECT tess_lc))].
Proof.
  unfold lightcurve_panel. run_panel; intros H; try discriminate.
  rewrite titles_app, titles_axvlines. reflexivity.
Qed.

(** The builder, panel by panel. *)
Lemma plot_outcome (spec : apogee_spec) (tess_lc : tess_lightcurve) :
  outcome (plot_spectrum_and_lc allstar apogee_wls spec tess_lc)
  = match outcome (population_panel allstar spec) with
    | Raise e => Raise e
    | Ok _ =>
        match outcome (spectrum_panel apogee_wls spec) with
        | Raise e => Raise e
        | Ok _ =>
            match outcome (lightcurve_panel tess_lc) with
            | Raise e => Raise e
            | Ok _ => Ok tt
            end
        end
    end.
Proof.
  unfold plot_spectrum_and_lc. run_steps.
  destruct (outcome (population_panel allstar spec)); [|reflexivity].
  run_steps. destruct (outcome (spectrum_panel apogee_wls spec)); [|reflexivity].
  run_steps. destruct (outcome (lightcurve_panel tess_lc)); reflexivity.
Qed.

Lemma plot_trace (spec : apogee_spec) (tess_lc : tess_lightcurve) :
  trace (plot_spectrum_and_lc allstar apogee_wls spec tess_lc)
  = Figure 20 10 ::
    trace (population_panel allstar spec) ++
    match outcome (population_panel allstar spec) with
    | Raise _ => []
    | Ok _ =>
        trace (spectrum_panel apogee_wls spec) ++
        match outcome (spectrum_panel apogee_wls spec) with
        | Raise _ => []
        | Ok apogee_id =>
            trace (lightcurve_panel tess_lc) ++
            match outcome (lightcurve_panel tess_lc) with
            | Raise _ => []
            | Ok _ =>
                [TightLayout; SaveFig (save_name_of apogee_id);
                 PrintLine (String.append "Saved to " (save_name_of apogee_id)); PltShow]
            end
        end
    end.
Proof.
  unfold plot_spectrum_and_lc.
  destruct (population_panel allstar spec) as [tp [[]|e1]];
    destruct (spectrum_panel apogee_wls spec) as [ts [apogee_id|e2]];
    destruct (lightcurve_panel tess_lc) as [tl [[]|e3]];
    simpl; rewrite ?app_nil_r; reflexivity.
Qed.

(** A run that completes saved one file, named after the identifier in the
    spectrum, and set the three titles. *)
Lemma plot_success (spec : apogee_spec) (tess_lc : tess_lightcurve) :
  outcome (plot_spectrum_and_lc allstar apogee_wls spec tess_lc) = Ok tt ->
  exists row0,
    nth_error (hdu4 spec) 0 = Some row0 /\
    artifacts (trace (plot_spectrum_and_lc allstar apogee_wls spec tess_lc))
    = [save_name_of (APOGEE_ID row0)] /\
    titles (trace (plot_spectrum_and_lc allstar apogee_wls spec tess_lc))
    = [(ax1, "APOGEE Stellar Parameters - allStar");
       (ax2, String.append "APOGEE Spectrum - " (APOGEE_ID row0));
       (ax3, String.append "TESS-SPOC Light Curve - " (OBJECT tess_lc))].
Proof.
  rewrite plot_outcome, plot_trace.
  pose proof (population_panel_titles spec) as Tp.
  pose proof (lightcurve_panel_titles tess_lc) as Tl.
  destruct (outcome (population_panel allstar spec)) as [[]|]; [|discriminate].
  pose proof (spectrum_panel_titles spec) as Ts.
  destruct (outcome (spectrum_panel apogee_wls spec)) as [apogee_id|]; [|discriminate].
  destruct (outcome (lightcurve_panel tess_lc)) as [[]|]; [|discriminate].
  intros _. destruct (Ts apogee_id eq_refl) as (row0 & Hrow & -> & Ts').
  exists row0. split; [exact Hrow|]. split.
  - change (Figure 20 10 :: ?t) with ([Figure 20 10] ++ t).
    rewrite !artifacts_app, population_panel_artifacts,
      spectrum_panel_artifacts, lightcurve_panel_artifacts.
    reflexivity.
  - change (Figure 20 10 :: ?t) with ([Figure 20 10] ++ t).
    rewrite !titles_app, (Tp eq_refl), Ts', (Tl eq_refl). reflexivity.
Qed.

End PlotBuilderFacts.

(** ** The saved artifact (C8) *)

(** C8.  Whenever the plot builder completes, it has saved exactly one
    file, named [<identifier>_APOGEE_spec_TESS_lightcurve.png] after the
    identifier in the spectrum's parameter table; for the identifier
    V1154_Cyg the file is [V1154_Cyg_APOGEE_spec_TESS_lightcurve.png]. *)
Theorem artifact_name_from_identifier
  (allstar : list allstar_row) (apogee_wls : list wave)
  (spec : apogee_spec) (tess_lc : tess_lightcurve) :
  outcome (plot_spectrum_and_lc allstar apogee_wls spec tess_lc) = Ok tt ->
  exists row0,
    nth_error (hdu4 spec) 0 = Some row0 /\
    artifacts (trace (plot_spectrum_and_lc allstar apogee_wls spec tess_lc))
    = [String.append (APOGEE_ID row0) "_APOGEE_spec_TESS_lightcurve.png"] /\
    (APOGEE_ID row0 = "V1154_Cyg" ->
     artifacts (trace (plot_spectrum_and_lc allstar apogee_wls spec tess_lc))
     = ["V1154_Cyg_APOGEE_spec_TESS_lightcurve.png"]).
Proof.
  intros Hok.
  destruct (plot_success allstar apogee_wls spec tess_lc Hok) as (row0 & Hrow & Ha & _).
  exists row0. split; [exact Hrow|]. split; [exact Ha|].
  intros Hid. rewrite Ha, Hid. reflexivity.
Qed.

Lemma artifact_name_from_identifier_witness :
  exists row0,
    nth_error (hdu4 aspcap_star_example) 0 = Some row0 /\
    artifacts (trace (plot_spectrum_and_lc allstar_example apogee_wls_example
                                           aspcap_star_example tess_lc_example))
    = [String.append (APOGEE_ID row0) "_APOGEE_spec_TESS_lightcurve.png"] /\
    (APOGEE_ID row0 = "V1154_Cyg" ->
     artifacts (trace (plot_spectrum_and_lc allstar_example apogee_wls_example
                                            aspcap_star_example tess_lc_example))
     = ["V1154_Cyg_APOGEE_spec_TESS_lightcurve.png"]).
Proof.
  apply (artifact_name_from_identifier allstar_example apogee_wls_example
                                       aspcap_star_example tess_lc_example).
  reflexivity.
Defined.

Example artifact_V1154_Cyg :
  artifacts (trace (plot_spectrum_and_lc allstar_example apogee_wls_example
                                         aspcap_star_example tess_lc_example))
  = ["V1154_Cyg_APOGEE_spec_TESS_lightcurve.png"].
Proof. reflexivity. Qed.

(** ** The panel titles (C9) *)

(** C9, as stated, fails: in a completed run for V1154_Cyg the population
    panel's title is a fixed string and the light-curve panel's title
    carries the TESS object name, so neither the APOGEE identifier nor the
    TESS object name is in all three titles. *)
Lemma titles_do_not_share_identifier :
  outcome (plot_spectrum_and_lc allstar_example apogee_wls_example
                                aspcap_star_example tess_lc_example) = Ok tt /\
  ~ titles_share_identifier
      (trace (plot_spectrum_and_lc allstar_example apogee_wls_example
                                   aspcap_star_example tess_lc_example))
      "V1154_Cyg" /\
  ~ titles_share_identifier
      (trace (plot_spectrum_and_lc allstar_example apogee_wls_example
                                   aspcap_star_example tess_lc_example))
      "TIC 26544959".
Proof.
  split; [reflexivity|].
  split; intros H; destruct (H ax1) as (s & Hin & Hc);
    vm_compute in Hin;
    destruct Hin as [E|[E|[E|[]]]]; try discriminate E;
    injection E as <-; vm_compute in Hc; discriminate.
Qed.

(** C9, amended.  Whenever the plot builder completes, the population panel
    is titled with the fixed string "APOGEE Stellar Parameters - allStar",
    the spectrum panel with "APOGEE Spectrum - " followed by the
    identifier in the spectrum's parameter table, and the light-curve panel
    with "TESS-SPOC Light Curve - " followed by the OBJECT header of the
    light-curve file. *)
Theorem titles_of_completed_figure
  (allstar : list allstar_row) (apogee_wls : list wave)
  (spec : apogee_spec) (tess_lc : tess_lightcurve) :
  outcome (plot_spectrum_and_lc allstar apogee_wls spec tess_lc) = Ok tt ->
  exists row0,
    nth_error (hdu4 spec) 0 = Some row0 /\
    titles (trace (plot_spectrum_and_lc allstar apogee_wls spec tess_lc))
    = [(ax1, "APOGEE Stellar Parameters - allStar");
       (ax2, String.append "APOGEE Spectrum - " (APOGEE_ID row0));
       (ax3, String.append "TESS-SPOC Light Curve - " (OBJECT tess_lc))].
Proof.
  intros Hok.
  destruct (plot_success allstar apogee_wls spec tess_lc Hok) as (row0 & Hrow & _ & Ht).
  exists row0. split; assumption.
Qed.

Lemma titles_of_completed_figure_witness :
  exists row0,
    nth_error (hdu4 aspcap_star_example) 0 = Some row0 /\
    titles (trace (plot_spectrum_and_lc allstar_example apogee_wls_example
                                        aspcap_star_example tess_lc_example))
    = [(ax1, "APOGEE Stellar Parameters - allStar");
       (ax2, String.append "APOGEE Spectrum - " (APOGEE_ID row0));
       (ax3, String.append "TESS-SPOC Light Curve - " (OBJECT tess_lc_example))].
Proof.
  apply (titles_of_completed_figure allstar_example apogee_wls_example
                      aspcap_star_example tess_lc_example).
  reflexivity.
Defined.

Example contains_example :
  contains "V1154_Cyg" "APOGEE Spectrum - V1154_Cyg" = true /\
  contains "V1154_Cyg" "APOGEE Stellar Parameters - allStar" = false.
Proof. split; reflexivity. Qed.

(** ** The target star in the catalog (C10, C5, C6) *)

Lemma kept_from_find {A} (p : A -> bool) (l : list A) (s : nat) :
  match find p l with
  | Some r => exists i rest,
      kept_from s (map p l) = (s + i)%nat :: rest /\ nth_error l i = Some r
  | None => kept_from s (map p l) = []
  end.
Proof.
  revert s. induction l as [|x l IH]; intros s; simpl; [reflexivity|].
  destruct (p x) eqn:Hx.
  - exists 0%nat, (kept_from (S s) (map p l)). rewrite Nat.add_0_r. auto.
  - specialize (IH (S s)). destruct (find p l) as [r|]; [|exact IH].
    destruct IH as (i & rest & Hk & Hi). exists (S i), rest.
    rewrite Nat.add_succ_r. auto.
Qed.

(** The lookup of the target star returns its first catalog row, and is
    defined exactly when the star is in the catalog. *)
Lemma target_index_present (allstar : list allstar_row) (apogee_id : string)
  (r : allstar_row) :
  catalog_row allstar apogee_id = Some r ->
  exists indx, target_index allstar apogee_id = Ok indx /\
               nth_error allstar indx = Some r.
Proof.
  intros H. unfold catalog_row in H. unfold target_index, np_where.
  pose proof (kept_from_find (fun r => String.eqb (cat_APOGEE_ID r) apogee_id)
                allstar 0) as Hk.
  rewrite H in Hk. destruct Hk as (i & rest & -> & Hi).
  exists i. split; [reflexivity|exact Hi].
Qed.

Lemma target_index_absent (allstar : list allstar_row) (apogee_id : string) :
  (forall r, In r allstar -> cat_APOGEE_ID r <> apogee_id) ->
  target_index allstar apogee_id = Raise (IndexError "index out of bounds").
Proof.
  intros H. unfold target_index, np_where.
  pose proof (kept_from_find (fun r => String.eqb (cat_APOGEE_ID r) apogee_id)
                allstar 0) as Hk.
  destruct (find _ allstar) as [r|] eqn:Hf.
  - apply find_some in Hf. destruct Hf as [Hin Heq].
    apply String.eqb_eq in Heq. exfalso. exact (H r Hin Heq).
  - rewrite Hk. reflexivity.
Qed.

(** C10.  When the identifier of the spectrum is the identifier of no
    catalog row, the lookup of the target star raises an index error, the
    plot builder stops with that error after the catalog scatter and its
    color bar, and no file has been saved. *)
Theorem target_absent_index_error
  (allstar : list allstar_row) (apogee_wls : list wave)
  (spec : apogee_spec) (tess_lc : tess_lightcurve) (row0 : aspcap_row) :
  nth_error (hdu4 spec) 0 = Some row0 ->
  (forall r, In r allstar -> cat_APOGEE_ID r <> APOGEE_ID row0) ->
  exists msg catalog_scatter,
    target_index allstar (APOGEE_ID row0) = Raise (IndexError msg) /\
    outcome (plot_spectrum_and_lc allstar apogee_wls spec tess_lc)
    = Raise (IndexError msg) /\
    trace (plot_spectrum_and_lc allstar apogee_wls spec tess_lc)
    = [Figure 20 10; catalog_scatter; Colorbar ax1 "bottom" "Metallicity [Fe/H]"] /\
    artifacts (trace (plot_spectrum_and_lc allstar apogee_wls spec tess_lc)) = [].
Proof.
  intros Hrow Habs.
  pose proof (target_index_absent allstar Habs) as Hidx.
  assert (Hp : population_panel allstar spec
               = ([Scatter ax1
                     (map cell_value (slice_step 10 (map TEFF allstar)))
                     (map cell_value (slice_step 10 (map LOGG allstar)))
                     (map cell_value (slice_step 10 (map FE_H allstar)))
                     "." 1 (-1) (1 # 2) 1 None;
                   Colorbar ax1 "bottom" "Metallicity [Fe/H]"],
                  Raise (IndexError "index out of bounds"))).
  { unfold population_panel, getitem. rewrite Hrow. simpl.
    rewrite Hidx. reflexivity. }
  eexists _, _. split; [exact Hidx|].
  rewrite plot_outcome, plot_trace, Hp. simpl. auto.
Qed.

Lemma target_absent_index_error_witness :
  exists msg catalog_scatter,
    target_index allstar_example "2M11361176+8117369" = Raise (IndexError msg) /\
    outcome (plot_spectrum_and_lc allstar_example apogee_wls_example
                                  aspcap_absent_example tess_lc_example)
    = Raise (IndexError msg) /\
    trace (plot_spectrum_and_lc allstar_example apogee_wls_example
                                aspcap_absent_example tess_lc_example)
    = [Figure 20 10; catalog_scatter; Colorbar ax1 "bottom" "Metallicity [Fe/H]"] /\
    artifacts (trace (plot_spectrum_and_lc allstar_example apogee_wls_example
                                           aspcap_absent_example tess_lc_example)) = [].
Proof.
  apply (target_absent_index_error allstar_example apogee_wls_example
           aspcap_absent_example tess_lc_example
           (row0 := mk_aspcap "2M11361176+8117369"
                              [Fin 6500; Fin 3; Fin 1; Fin (- (12 # 10))])).
  - reflexivity.
  - intros r Hin. simpl in Hin.
    repeat (destruct Hin as [<-|Hin]; [discriminate|]). destruct Hin.
Defined.

Lemma getitem_nth {A} (a : list A) (i : nat) (x : A) :
  nth_error a i = Some x -> getitem a i = Ok x.
Proof.
  intros H. unfold getitem. rewrite H. reflexivity.
Qed.

#[local] Arguments getitem : simpl never.

(** C5.  When the first catalog row of the spectrum's star has a masked
    (invalid or missing) calibrated temperature, the population panel
    prints the quality warning, overlays the star at its uncalibrated
    pipeline-fit parameters (FPARAM temperature, surface gravity and
    metallicity) instead of the catalog ones, and completes; the builder
    then completes and saves the file whenever the spectrum and light-curve
    panels do. *)
Theorem fallback_to_pipeline_parameters
  (allstar : list allstar_row) (apogee_wls : list wave)
  (spec : apogee_spec) (tess_lc : tess_lightcurve)
  (row0 : aspcap_row) (r : allstar_row)
  (teff logg vmicro m_h : float) (rest : list float) :
  nth_error (hdu4 spec) 0 = Some row0 ->
  catalog_row allstar (APOGEE_ID row0) = Some r ->
  TEFF r = None ->
  FPARAM row0 = teff :: logg :: vmicro :: m_h :: rest ->
  outcome (population_panel allstar spec) = Ok tt /\
  scatters_with "*" (trace (population_panel allstar spec))
  = [Scatter ax1 [VFloat teff] [VFloat logg] [VFloat m_h]
       "*" 1000 (-1) (1 # 2) 5 (Some "APOGEE Parameters")] /\
  filter is_print (trace (population_panel allstar spec)) = [PrintLine quality_warning] /\
  (forall apogee_id,
     outcome (spectrum_panel apogee_wls spec) = Ok apogee_id ->
     outcome (lightcurve_panel tess_lc) = Ok tt ->
     outcome (plot_spectrum_and_lc allstar apogee_wls spec tess_lc) = Ok tt /\
     artifacts (trace (plot_spectrum_and_lc allstar apogee_wls spec tess_lc))
     = [save_name_of (APOGEE_ID row0)]).
Proof.
  intros Hrow Hcat Hteff Hfp.
  destruct (target_index_present allstar (APOGEE_ID row0) Hcat) as (indx & Hidx & Hnth).
  assert (Hp : population_panel allstar spec
               = ([Scatter ax1
                     (map cell_value (slice_step 10 (map TEFF allstar)))
                     (map cell_value (slice_step 10 (map LOGG allstar)))
                     (map cell_value (slice_step 10 (map FE_H allstar)))
                     "." 1 (-1) (1 # 2) 1 None;
                   Colorbar ax1 "bottom" "Metallicity [Fe/H]";
                   PrintLine quality_warning;
                   Scatter ax1 [VFloat teff] [VFloat logg] [VFloat m_h]
                     "*" 1000 (-1) (1 # 2) 5 (Some "APOGEE Parameters");
                   SetXLim ax1 (VFloat (Fin 7000)) (VFloat (Fin 3000));
                   SetYLim ax1 (VFloat (Fin (11 # 2))) (VFloat (Fin (- (1 # 2))));
                   SetXLabel ax1 "Effective Temperature [$T_{\rm{eff}}$, K]";
                   SetYLabel ax1 "Surface Gravity [$\log(g)$]";
                   Grid ax1;
                   SetTitle ax1 "APOGEE Stellar Parameters - allStar"],
                  Ok tt)).
  { unfold population_panel.
    rewrite (getitem_nth _ _ Hrow). simpl. rewrite Hidx. simpl.
    rewrite (getitem_nth _ _ (map_nth_error TEFF _ _ Hnth)), Hteff. simpl.
    rewrite (getitem_nth _ _ (map_nth_error FPARAM _ _ Hrow)), Hfp. reflexivity. }
  rewrite Hp. repeat split.
  - rewrite plot_outcome, Hp, H, H0. reflexivity.
  - assert (Hok : outcome (plot_spectrum_and_lc allstar apogee_wls spec tess_lc) = Ok tt)
      by (rewrite plot_outcome, Hp, H, H0; reflexivity).
    destruct (plot_success allstar apogee_wls spec tess_lc Hok) as (row0' & Hrow' & Ha & _).
    rewrite Ha. congruence.
Qed.

Lemma fallback_to_pipeline_parameters_witness :
  outcome (population_panel allstar_example aspcap_binary_example) = Ok tt /\
  scatters_with "*" (trace (population_panel allstar_example aspcap_binary_example))
  = [Scatter ax1 [VFloat (Fin 5800)] [VFloat (Fin (42 # 10))] [VFloat (Fin (5 # 100))]
       "*" 1000 (-1) (1 # 2) 5 (Some "APOGEE Parameters")] /\
  filter is_print (trace (population_panel allstar_example aspcap_binary_example))
  = [PrintLine quality_warning] /\
  (forall apogee_id,
     outcome (spectrum_panel apogee_wls_example aspcap_binary_example) = Ok apogee_id ->
     outcome (lightcurve_panel tess_lc_example) = Ok tt ->
     outcome (plot_spectrum_and_lc allstar_example apogee_wls_example
                                   aspcap_binary_example tess_lc_example) = Ok tt /\
     artifacts (trace (plot_spectrum_and_lc allstar_example apogee_wls_example
                                            aspcap_binary_example tess_lc_example))
     = [save_name_of "2M19203184+3830492"]).
Proof.
  apply (fallback_to_pipeline_parameters allstar_example apogee_wls_example
           aspcap_binary_example tess_lc_example
           (row0 := mk_aspcap "2M19203184+3830492"
                      [Fin 5800; Fin (42 # 10); Fin 1; Fin (5 # 100);
                       Fin 0; Fin 0; Fin 0; Fin 0; Fin 0])
           (r := mk_allstar "2M19203184+3830492" None None None)
           (vmicro := Fin 1) (rest := [Fin 0; Fin 0; Fin 0; Fin 0; Fin 0]));
    reflexivity.
Defined.

Example fallback_run_completes :
  outcome (plot_spectrum_and_lc allstar_example apogee_wls_example
                                aspcap_binary_example tess_lc_example) = Ok tt /\
  artifacts (trace (plot_spectrum_and_lc allstar_example apogee_wls_example
                                         aspcap_binary_example tess_lc_example))
  = ["2M19203184+3830492_APOGEE_spec_TESS_lightcurve.png"].
Proof. split; reflexivity. Qed.

(** ** The catalog scatter (C6) *)

Lemma stride_from_nth {A} (step : nat) (a : list A) (skip k : nat) :
  (0 < step)%nat ->
  nth_error (stride_from step skip a) k = nth_error a (skip + k * step).
Proof.
  intros Hstep. revert skip k. induction a as [|x a IH]; intros skip k.
  - simpl. destruct k, (skip + _)%nat; reflexivity.
  - simpl. destruct skip as [|skip].
    + destruct k as [|k]; [reflexivity|]. simpl. rewrite IH.
      replace (step + k * step)%nat with (S (step - 1 + k * step)) by lia.
      reflexivity.
    + rewrite IH. reflexivity.
Qed.

Lemma slice_step_column {A} (f : allstar_row -> A) (g : A -> value)
  (allstar : list allstar_row) (k : nat) :
  nth_error (map g (slice_step 10 (map f allstar))) k
  = option_map (fun r => g (f r)) (nth_error allstar (10 * k)).
Proof.
  unfold slice_step. rewrite nth_error_map, stride_from_nth by lia.
  rewrite nth_error_map. simpl (0 + _)%nat.
  replace (k * 10)%nat with (10 * k)%nat by lia.
  destruct (nth_error allstar (10 * k)); reflexivity.
Qed.

(** C6, as stated, fails: in a completed run on the eleven-row catalog,
    the entry of row 3 is drawn by no scatter call. *)
Lemma population_panel_skips_entries :
  outcome (plot_spectrum_and_lc allstar_example apogee_wls_example
                                aspcap_star_example tess_lc_example) = Ok tt /\
  ~ plots_all_catalog_entries allstar_example
      (trace (plot_spectrum_and_lc allstar_example apogee_wls_example
                                   aspcap_star_example tess_lc_example)).
Proof.
  split; [reflexivity|]. intros H.
  destruct (H (VFloat (Fin 5501), VFloat (Fin 4), VFloat (Fin (- (3 # 10)))))
    as (e & He & Hp).
  - simpl. tauto.
  - vm_compute in He.
    repeat (destruct He as [<-|He]; [vm_compute in Hp; try tauto|]);
      try contradiction.
    all: repeat (destruct Hp as [Hp|Hp]; [discriminate Hp|]); contradiction.
Qed.

(** C6, amended.  For every catalog, the population panel first draws one
    scatter call holding every tenth catalog entry (rows 0, 10, 20, ... in
    catalog order) as (temperature, surface gravity) points colored by
    metallicity on the fixed scale from -1 to 1/2, and no other scatter
    with the catalog marker; whenever the panel completes, the target star
    is overlaid once with the star marker on the same scale. *)
Theorem population_panel_every_tenth
  (allstar : list allstar_row) (spec : apogee_spec) :
  exists xs ys cs rest,
    trace (population_panel allstar spec)
    = Scatter ax1 xs ys cs "." 1 (-1) (1 # 2) 1 None
      :: Colorbar ax1 "bottom" "Metallicity [Fe/H]" :: rest /\
    (forall k, nth_error xs k
               = option_map (fun r => cell_value (TEFF r)) (nth_error allstar (10 * k))) /\
    (forall k, nth_error ys k
               = option_map (fun r => cell_value (LOGG r)) (nth_error allstar (10 * k))) /\
    (forall k, nth_error cs k
               = option_map (fun r => cell_value (FE_H r)) (nth_error allstar (10 * k))) /\
    scatters_with "." (trace (population_panel allstar spec))
    = [Scatter ax1 xs ys cs "." 1 (-1) (1 # 2) 1 None] /\
    (outcome (population_panel allstar spec) = Ok tt ->
     exists x y c,
       scatters_with "*" (trace (population_panel allstar spec))
       = [Scatter ax1 [x] [y] [c] "*" 1000 (-1) (1 # 2) 5 (Some "APOGEE Parameters")]).
Proof.
  eexists _, _, _, _. split; [|split; [|split; [|split; [|split]]]].
  - unfold population_panel. run_steps. reflexivity.
  - intros k. apply slice_step_column.
  - intros k. apply slice_step_column.
  - intros k. apply slice_step_column.
  - unfold population_panel. run_panel; reflexivity.
  - unfold population_panel. run_panel; intros H; try discriminate;
      eexists _, _, _; reflexivity.
Qed.

Lemma population_panel_every_tenth_witness :
  exists x y c,
    scatters_with "*" (trace (population_panel allstar_example aspcap_star_example))
    = [Scatter ax1 [x] [y] [c] "*" 1000 (-1) (1 # 2) 5 (Some "APOGEE Parameters")].
Proof.
  destruct (population_panel_every_tenth allstar_example aspcap_star_example)
    as (xs & ys & cs & rest & _ & _ & _ & _ & _ & H).
  apply H. reflexivity.
Defined.

(** ** The orchestration (C4) *)

Lemma getitem_nil {A} (i : nat) :
  getitem (@nil A) i = Raise (IndexError "index out of bounds").
Proof. destruct i; reflexivity. Qed.

Lemma getitem_cons_0 {A} (x : A) (a : list A) : getitem (x :: a) 0 = Ok x.
Proof. reflexivity. Qed.

#[local] Hint Rewrite @getitem_nil @getitem_cons_0 : run.

(** C4, as stated, fails: when the time-series query returns no row, the
    error raised is numpy's, about an empty sequence; its message does not
    contain the identifier. *)
Lemma empty_time_series_error_not_descriptive :
  query_tess archive_without_tess (Fin 174) (Fin 81) = Ok [] /\
  outcome (plot_variable_star archive_without_tess allstar_example
             apogee_wls_example "2M11361176+8117369")
  = Raise (ValueError "attempt to get argmin of an empty sequence") /\
  ~ fails_naming (plot_variable_star archive_without_tess allstar_example
                    apogee_wls_example "2M11361176+8117369")
      "2M11361176+8117369".
Proof.
  split; [reflexivity|]. split; [reflexivity|].
  intros (e & He & Hc). vm_compute in He.
  assert (Ee : e = ValueError "attempt to get argmin of an empty sequence")
    by congruence.
  rewrite Ee in Hc. vm_compute in Hc. discriminate Hc.
Qed.

Ltac run_archive :=
  repeat (run_steps;
          match goal with
          | H : query_tess _ _ _ = _ |- _ => rewrite H
          | |- context [match ?r with Ok _ => _ | Raise _ => _ end] =>
              destruct r eqn:?
          end);
  run_steps.

(** C4, amended.  When the observation query answers with no row, or the
    time-series query at the star's coordinates answers with no row,
    [plot_variable_star] stops with an exception before the plot builder is
    entered: it has only printed progress lines and no file has been
    saved.  The exception is the one the failing library call raises; when
    the spectrum was found, listed, downloaded and opened and the
    time-series answer is empty, it is numpy's [ValueError] about an empty
    sequence. *)
Theorem empty_query_fails_before_plot
  (Observations : ArchiveClient) (allstar : list allstar_row)
  (apogee_wls : list wave) (apogee_id : string) :
  (query_apogee Observations apogee_id = Ok [] \/
   exists r0 rest,
     query_apogee Observations apogee_id = Ok (r0 :: rest) /\
     query_tess Observations (s_ra r0) (s_dec r0) = Ok []) ->
  (exists e,
     outcome (plot_variable_star Observations allstar apogee_wls apogee_id) = Raise e) /\
  Forall (fun ev => is_print ev = true)
         (trace (plot_variable_star Observations allstar apogee_wls apogee_id)) /\
  artifacts (trace (plot_variable_star Observations allstar apogee_wls apogee_id)) = [] /\
  (forall r0 rest products m0 manifest spec,
     query_apogee Observations apogee_id = Ok (r0 :: rest) ->
     get_product_list Observations (r0 :: rest) = Ok products ->
     download_products Observations products (BySubGroup "ASPCAPSTAR")
     = Ok (m0 :: manifest) ->
     open_spectrum Observations (Local_Path m0) = Ok spec ->
     query_tess Observations (s_ra r0) (s_dec r0) = Ok [] ->
     outcome (plot_variable_star Observations allstar apogee_wls apogee_id)
     = Raise (ValueError "attempt to get argmin of an empty sequence")).
Proof.
  intros H. split; [|split; [|split]].
  - unfold plot_variable_star.
    destruct H as [H|(r0 & rest & H & Ht)]; rewrite H; run_steps.
    + run_archive; eauto.
    + run_archive; eauto.
  - unfold plot_variable_star.
    destruct H as [H|(r0 & rest & H & Ht)]; rewrite H; run_steps.
    + run_archive; repeat constructor.
    + run_archive; repeat constructor.
  - unfold plot_variable_star.
    destruct H as [H|(r0 & rest & H & Ht)]; rewrite H; run_steps.
    + run_archive; reflexivity.
    + run_archive; reflexivity.
  - intros r0 rest products m0 manifest spec Hq Hp Hd Ho Ht.
    unfold plot_variable_star. run_steps. rewrite Hq. run_steps.
    rewrite Hp. run_steps. rewrite Hd. run_steps. rewrite Ho. run_steps.
    rewrite Ht. reflexivity.
Qed.

Lemma empty_query_fails_before_plot_witness :
  (exists e,
     outcome (plot_variable_star archive_without_tess allstar_example
                apogee_wls_example "2M11361176+8117369") = Raise e) /\
  Forall (fun ev => is_print ev = true)
         (trace (plot_variable_star archive_without_tess allstar_example
                   apogee_wls_example "2M11361176+8117369")) /\
  artifacts (trace (plot_variable_star archive_without_tess allstar_example
                      apogee_wls_example "2M11361176+8117369")) = [] /\
  (forall r0 rest products m0 manifest spec,
     query_apogee archive_without_tess "2M11361176+8117369" = Ok (r0 :: rest) ->
     get_product_list archive_without_tess (r0 :: rest) = Ok products ->
     download_products archive_without_tess products (BySubGroup "ASPCAPSTAR")
     = Ok (m0 :: manifest) ->
     open_spectrum archive_without_tess (Local_Path m0) = Ok spec ->
     query_tess archive_without_tess (s_ra r0) (s_dec r0) = Ok [] ->
     outcome (plot_variable_star archive_without_tess allstar_example
                apogee_wls_example "2M11361176+8117369")
     = Raise (ValueError "attempt to get argmin of an empty sequence")).
Proof.
  apply (empty_query_fails_before_plot archive_without_tess allstar_example
           apogee_wls_example "2M11361176+8117369").
  right. eexists _, _. split; reflexivity.
Defined.

(** * Further properties of the notebook's code *)

(** ** The closest match beyond its precondition *)

Lemma argmin_loop_bound (rest : list float) (mp : float) (k i : nat) :
  (k < i)%nat -> (argmin_loop mp k i rest < i + List.length rest)%nat.
Proof.
  revert mp k i. induction rest as [|x rest IH]; intros mp k i Hk; simpl.
  - lia.
  - destruct (negb (leb mp x)).
    + destruct (isnan x); [lia|].
      specialize (IH x i (S i)). lia.
    + specialize (IH mp k (S i)). lia.
Qed.

Lemma argmin_in_range (a : list float) (i : nat) :
  argmin a = Ok i -> (i < List.length a)%nat.
Proof.
  destruct a as [|mp rest]; simpl; [discriminate|].
  destruct (isnan mp); intros H; injection H as <-; [lia|].
  pose proof (argmin_loop_bound rest mp (k := 0) (i := 1)). lia.
Qed.

(** X1.  The selection raises only on an empty table, with numpy's error about
    an empty sequence; on any other table, whatever the distances (NaN and
    infinities included), it returns one of the table's rows. *)
Theorem closest_match_member_or_empty (tess_obs : list obs_row) :
  match closest_match tess_obs with
  | Ok r => In r tess_obs
  | Raise e =>
      tess_obs = [] /\
      e = ValueError "attempt to get argmin of an empty sequence"
  end.
Proof.
  unfold closest_match.
  destruct (argmin (map distance tess_obs)) as [i|e] eqn:Ha; simpl.
  - apply argmin_in_range in Ha. rewrite length_map in Ha.
    unfold getitem. destruct (nth_error tess_obs i) as [r|] eqn:Hr.
    + eapply nth_error_In; eauto.
    + apply nth_error_None in Hr. lia.
  - destruct tess_obs as [|r rest]; simpl in Ha.
    + injection Ha as <-. auto.
    + destruct (isnan (distance r)); discriminate.
Qed.

Lemma argmin_loop_first_nan (pre post : list float) (x mp : float) (k i : nat) :
  Forall (fun y => isnan y = false) pre -> isnan x = true ->
  argmin_loop mp k i (pre ++ x :: post) = (i + List.length pre)%nat.
Proof.
  intros Hpre Hx. revert mp k i.
  induction Hpre as [|y pre Hy Hpre IH]; intros mp k i; simpl.
  - destruct x; try discriminate.
    replace (leb mp NaN) with false by (destruct mp; reflexivity).
    simpl. lia.
  - rewrite Hy. destruct (negb (leb mp y)); rewrite IH; lia.
Qed.

(** X2.  When some distance is NaN, the selection returns the first record
    whose distance is NaN, whatever the other distances are. *)
Theorem closest_match_first_nan (pre post : list obs_row) (r : obs_row) :
  Forall (fun p => isnan (distance p) = false) pre ->
  isnan (distance r) = true ->
  closest_match (pre ++ r :: post) = Ok r.
Proof.
  intros Hpre Hr. unfold closest_match.
  assert (Ha : argmin (map distance (pre ++ r :: post)) = Ok (List.length pre)).
  { rewrite map_app. simpl. destruct pre as [|p pre]; simpl.
    - rewrite Hr. reflexivity.
    - inversion Hpre as [|? ? Hp Hpre']; subst. rewrite Hp.
      rewrite argmin_loop_first_nan.
      + rewrite length_map. reflexivity.
      + apply Forall_map. exact Hpre'.
      + exact Hr. }
  rewrite Ha. simpl. unfold getitem.
  rewrite nth_error_app2 by lia. rewrite Nat.sub_diag. reflexivity.
Qed.

Lemma closest_match_first_nan_witness :
  closest_match tess_obs_nan_example
  = Ok (mk_obs "tess-s0015" (Fin 297) (Fin 43) NaN).
Proof.
  apply (@closest_match_first_nan
           [mk_obs "tess-s0014" (Fin 297) (Fin 43) (Fin (1 # 2))]
           [mk_obs "tess-s0041" (Fin 297) (Fin 43) (Fin 0)]
           (mk_obs "tess-s0015" (Fin 297) (Fin 43) NaN)).
  - repeat constructor.
  - reflexivity.
Defined.

(** ** The wavelength grid as the code builds it *)

Lemma grid_nth (aspcap_star : apogee_spec) (i : nat) :
  NAXIS1 (hdu3 aspcap_star) = NAXIS1 (hdu1 aspcap_star) ->
  (1 < NAXIS1 (hdu1 aspcap_star))%nat ->
  (i < NAXIS1 (hdu1 aspcap_star))%nat ->
  let c := CRVAL1 (hdu1 aspcap_star) in
  let stop := c + CDELT1 (hdu1 aspcap_star)
                  * inject_Z (Z.of_nat (NAXIS1 (hdu1 aspcap_star))) in
  nth_error (apogee_wls_of aspcap_star) i
  = Some (Pow10 (if (i <? NAXIS1 (hdu1 aspcap_star) - 1)%nat
                 then inject_Z (Z.of_nat i)
                      * ((stop - c) / inject_Z (Z.of_nat (NAXIS1 (hdu1 aspcap_star) - 1)))
                      + c
                 else stop)).
Proof.
  intros Hn Hnum Hi c stop. unfold apogee_wls_of, logspace. rewrite Hn.
  rewrite nth_error_map, linspace_nth by lia. reflexivity.
Qed.

Lemma grid_divisor_nonzero (n : nat) :
  (1 < n)%nat -> ~ inject_Z (Z.of_nat (n - 1)) == 0.
Proof.
  intros Hn H0. assert (Hlt : 0 < inject_Z (Z.of_nat (n - 1))).
  { change 0 with (inject_Z 0). rewrite <- Zlt_Qlt. lia. }
  rewrite H0 in Hlt. exact (Qlt_irrefl _ Hlt).
Qed.

Lemma grid_length (aspcap_star : apogee_spec) :
  List.length (apogee_wls_of aspcap_star) = NAXIS1 (hdu1 aspcap_star).
Proof.
  unfold apogee_wls_of, logspace. rewrite length_map. apply linspace_length.
Qed.

(** X3.  With two pixels or more, pixel [i] of the grid has the exponent
    [CRVAL1 + i * (CDELT1 * NAXIS1 / (NAXIS1 - 1))]: the samples are spread
    evenly up to the stop [CRVAL1 + CDELT1 * NAXIS1], which is the last
    sample, so the spacing is not the header's step [CDELT1]. *)
Theorem apogee_wls_spacing (aspcap_star : apogee_spec) (i : nat) (w : wave) :
  NAXIS1 (hdu3 aspcap_star) = NAXIS1 (hdu1 aspcap_star) ->
  (1 < NAXIS1 (hdu1 aspcap_star))%nat ->
  nth_error (apogee_wls_of aspcap_star) i = Some w ->
  wave_exponent w
  == CRVAL1 (hdu1 aspcap_star)
     + inject_Z (Z.of_nat i)
       * (CDELT1 (hdu1 aspcap_star) * inject_Z (Z.of_nat (NAXIS1 (hdu1 aspcap_star)))
          / inject_Z (Z.of_nat (NAXIS1 (hdu1 aspcap_star) - 1))) /\
  nth_error (apogee_wls_of aspcap_star) (NAXIS1 (hdu1 aspcap_star) - 1)
  = Some (Pow10 (CRVAL1 (hdu1 aspcap_star)
                 + CDELT1 (hdu1 aspcap_star)
                   * inject_Z (Z.of_nat (NAXIS1 (hdu1 aspcap_star))))).
Proof.
  intros Hn Hnum Hw.
  pose proof (grid_divisor_nonzero Hnum) as HD.
  split.
  - assert (Hi : (i < NAXIS1 (hdu1 aspcap_star))%nat).
    { apply nth_error_Some_lt in Hw. rewrite grid_length in Hw. exact Hw. }
    rewrite (grid_nth aspcap_star Hn Hnum Hi) in Hw. injection Hw as <-.
    destruct (i <? NAXIS1 (hdu1 aspcap_star) - 1)%nat eqn:Ei; simpl.
    + field. exact HD.
    + apply Nat.ltb_ge in Ei.
      replace i with (NAXIS1 (hdu1 aspcap_star) - 1)%nat by lia.
      field. exact HD.
  - rewrite (grid_nth aspcap_star (i := NAXIS1 (hdu1 aspcap_star) - 1) Hn Hnum)
      by lia.
    rewrite Nat.ltb_irrefl. reflexivity.
Qed.

Lemma apogee_wls_spacing_witness :
  wave_exponent (Pow10 (2 * (((4179 # 1000) + (6 # 1000000) * 4 - (4179 # 1000)) / 3)
                        + (4179 # 1000)))
  == (4179 # 1000) + 2 * ((6 # 1000000) * 4 / 3) /\
  nth_error (apogee_wls_of aspcap_star_example) 3
  = Some (Pow10 ((4179 # 1000) + (6 # 1000000) * 4)).
Proof.
  apply (@apogee_wls_spacing aspcap_star_example 2%nat).
  - reflexivity.
  - simpl. lia.
  - reflexivity.
Defined.

(** ** The limits of the wavelength axis *)

Lemma sorted_of_nth {A} (R : A -> A -> Prop) (l : list A) :
  (forall i j a b, (i < j)%nat -> nth_error l i = Some a ->
                   nth_error l j = Some b -> R a b) ->
  StronglySorted R l.
Proof.
  induction l as [|x l IH]; intros H; constructor.
  - apply IH. intros i j a b Hij Ha Hb. apply (H (S i) (S j)); [lia|exact Ha|exact Hb].
  - apply Forall_forall. intros y Hy. apply In_nth_error in Hy.
    destruct Hy as [j Hj]. apply (H 0%nat (S j)); [lia|reflexivity|exact Hj].
Qed.

Lemma np_min_sorted (x : wave) (rest : list wave) :
  StronglySorted wave_lt (x :: rest) -> np_min (x :: rest) = Ok x.
Proof.
  intros H. apply StronglySorted_inv in H. destruct H as [_ H]. simpl. f_equal.
  induction H as [|y rest Hy H IH]; simpl; [reflexivity|].
  assert (E : wave_leb x y = true)
    by (apply Qle_bool_iff, Qlt_le_weak; exact Hy).
  rewrite E. exact IH.
Qed.

Lemma np_max_sorted (x : wave) (rest : list wave) :
  StronglySorted wave_lt (x :: rest) ->
  exists hi, np_max (x :: rest) = Ok hi /\
             nth_error (x :: rest) (List.length rest) = Some hi.
Proof.
  revert x. induction rest as [|y rest IH]; intros x H.
  - exists x. split; reflexivity.
  - apply StronglySorted_inv in H. destruct H as [Hs Hx].
    destruct (IH y Hs) as (hi & Hmax & Hnth).
    exists hi. split; [|exact Hnth].
    simpl in *. inversion Hx as [|? ? Hxy _]; subst.
    assert (E : wave_leb y x = false).
    { unfold wave_leb. destruct (Qle_bool _ _) eqn:E'; [|reflexivity].
      apply Qle_bool_iff in E'. exfalso. exact (Qlt_not_le _ _ Hxy E'). }
    rewrite E. exact Hmax.
Qed.

Lemma apogee_wls_sorted (aspcap_star : apogee_spec) :
  0 < CDELT1 (hdu1 aspcap_star) ->
  NAXIS1 (hdu3 aspcap_star) = NAXIS1 (hdu1 aspcap_star) ->
  StronglySorted wave_lt (apogee_wls_of aspcap_star).
Proof.
  intros Hstep Hn. apply sorted_of_nth. intros i j a b Hij Ha Hb.
  unfold apogee_wls_of, logspace in Ha, Hb. rewrite Hn in Ha, Hb.
  rewrite nth_error_map in Ha, Hb.
  destruct (nth_error _ i) as [yi|] eqn:Eyi; [|discriminate].
  destruct (nth_error _ j) as [yj|] eqn:Eyj; [|discriminate].
  simpl in Ha, Hb. injection Ha as <-. injection Hb as <-.
  unfold wave_lt. simpl.
  assert (Hjn : (j < NAXIS1 (hdu1 aspcap_star))%nat).
  { apply nth_error_Some_lt in Eyj. rewrite linspace_length in Eyj. exact Eyj. }
  eapply linspace_increasing; [|exact Hij|exact Eyi|exact Eyj].
  assert (Hpos : 0 < inject_Z (Z.of_nat (NAXIS1 (hdu1 aspcap_star)))).
  { change 0 with (inject_Z 0). rewrite <- Zlt_Qlt. lia. }
  pose proof (Qmult_lt_compat_r _ _ _ Hpos Hstep) as Hm.
  rewrite Qmult_0_l in Hm. lra.
Qed.



(** ** The gridlines at the edges *)

Lemma defined_nil_all_nan (a : list float) :
  defined a = [] -> Forall (fun x => x = NaN) a.
Proof.
  induction a as [|x a IH]; intros H; constructor.
  - unfold defined in H. simpl in H. destruct x; simpl in H; try discriminate.
    reflexivity.
  - apply IH. unfold defined in *. simpl in H.
    destruct (negb (isnan x)); [discriminate|exact H].
Qed.

(** X5.  A time column without any defined sample stops the light-curve panel:
    the curve has been drawn, then the bounds raise a [ValueError] (the
    reduction of an empty array, or the conversion of NaN to an integer),
    and no gridline or title follows. *)
Theorem lightcurve_without_defined_sample (tess_lc : tess_lightcurve) :
  let time := map TIME (LIGHTCURVE tess_lc) in
  defined time = [] ->
  exists msg,
    gridlines time = Raise (ValueError msg) /\
    lightcurve_panel tess_lc
    = ([Plot ax3 (map VFloat time)
          (map (fun r => VFloat (SAP_FLUX r)) (LIGHTCURVE tess_lc))
          "k" "TESS Light Curve"],
       Raise (ValueError msg)).
Proof.
  intros time Hd.
  assert (Hg : exists msg, gridlines time = Raise (ValueError msg)).
  { destruct time as [|x rest] eqn:E.
    - eexists. reflexivity.
    - pose proof (defined_nil_all_nan _ Hd) as Hall.
      inversion Hall as [|? ? Hx Hrest]; subst.
      assert (Hdr : defined rest = []).
      { unfold defined in *. simpl in Hd. exact Hd. }
      unfold gridlines. simpl.
      rewrite fmin_sel, (fold_sel_from_nan leb leb_refl leb_total rest), Hdr.
      eexists. reflexivity. }
  destruct Hg as [msg Hg]. exists msg. split; [exact Hg|].
  unfold lightcurve_panel. fold time. rewrite Hg. reflexivity.
Qed.

Lemma lightcurve_without_defined_sample_witness :
  exists msg,
    gridlines (map TIME (LIGHTCURVE tess_lc_gap_example)) = Raise (ValueError msg) /\
    lightcurve_panel tess_lc_gap_example
    = ([Plot ax3 (map VFloat (map TIME (LIGHTCURVE tess_lc_gap_example)))
          (map (fun r => VFloat (SAP_FLUX r)) (LIGHTCURVE tess_lc_gap_example))
          "k" "TESS Light Curve"],
       Raise (ValueError msg)).
Proof.
  apply (lightcurve_without_defined_sample tess_lc_gap_example).
  reflexivity.
Defined.

Lemma finite_sample (time : list float) (x : float) :
  Forall (fun y => y <> PInf /\ y <> NInf) time ->
  In x (defined time) -> exists q, x = Fin q.
Proof.
  intros Hall Hx. apply defined_In in Hx. destruct Hx as [Hin Hnan].
  rewrite Forall_forall in Hall. destruct (Hall x Hin) as [Hp Hn].
  destruct x; try discriminate; try congruence. eauto.
Qed.

(** X6.  When the time column has a defined sample and no infinite one, the
    light-curve panel completes, and it draws a gridline at day [i]
    exactly when [int(min) <= i < int(max)] for the least and greatest
    defined samples: the day of the last sample gets no line. *)
Theorem lightcurve_gridline_days (tess_lc : tess_lightcurve) :
  let time := map TIME (LIGHTCURVE tess_lc) in
  defined time <> [] ->
  Forall (fun y => y <> PInf /\ y <> NInf) time ->
  exists lo hi a b,
    nanmin time = Ok lo /\ nanmax time = Ok hi /\
    to_int lo = Ok a /\ to_int hi = Ok b /\
    gridlines time = Ok (range a b) /\
    outcome (lightcurve_panel tess_lc) = Ok tt /\
    forall i, In (AxVLine ax3 i "lightgrey") (trace (lightcurve_panel tess_lc))
              <-> (a <= i < b)%Z.
Proof.
  intros time Hne Hfin.
  destruct (nanmin_defined time Hne) as (lo & Hlo & _ & Hlo_in & _).
  destruct (nanmax_defined time Hne) as (hi & Hhi & _ & Hhi_in & _).
  destruct (@finite_sample time lo Hfin Hlo_in) as [ql ->].
  destruct (@finite_sample time hi Hfin Hhi_in) as [qh ->].
  assert (Hg : gridlines time
               = Ok (range (Z.quot (Qnum ql) (Zpos (Qden ql)))
                           (Z.quot (Qnum qh) (Zpos (Qden qh))))).
  { unfold gridlines. rewrite Hlo, Hhi. reflexivity. }
  eexists _, _, _, _.
  split; [exact Hlo|]. split; [exact Hhi|].
  split; [reflexivity|]. split; [reflexivity|]. split; [exact Hg|].
  unfold lightcurve_panel. fold time. rewrite Hg. run_steps.
  rewrite for_each_emit. simpl. split; [reflexivity|].
  intros i. rewrite <- In_range. split.
  - intros [Hc|Hin]; [discriminate|].
    apply in_app_or in Hin. destruct Hin as [Hin|Hin].
    + apply in_map_iff in Hin. destruct Hin as (d & Hd & Hin).
      injection Hd as <-. exact Hin.
    + simpl in Hin. repeat (destruct Hin as [Hc|Hin]; [discriminate|]).
      contradiction.
  - intros Hin. right. apply in_or_app. left.
    apply in_map_iff. exists i. split; [reflexivity|exact Hin].
Qed.

Lemma lightcurve_gridline_days_witness :
  exists lo hi a b,
    nanmin (map TIME (LIGHTCURVE tess_lc_example)) = Ok lo /\
    nanmax (map TIME (LIGHTCURVE tess_lc_example)) = Ok hi /\
    to_int lo = Ok a /\ to_int hi = Ok b /\
    gridlines (map TIME (LIGHTCURVE tess_lc_example)) = Ok (range a b) /\
    outcome (lightcurve_panel tess_lc_example) = Ok tt /\
    forall i, In (AxVLine ax3 i "lightgrey") (trace (lightcurve_panel tess_lc_example))
              <-> (a <= i < b)%Z.
Proof.
  apply (lightcurve_gridline_days tess_lc_example).
  - discriminate.
  - repeat constructor; discriminate.
Defined.

(** ** When the builder saves a file *)

Lemma plot_artifacts (allstar : list allstar_row) (apogee_wls : list wave)
  (spec : apogee_spec) (tess_lc : tess_lightcurve) :
  artifacts (trace (plot_spectrum_and_lc allstar apogee_wls spec tess_lc))
  = match outcome (population_panel allstar spec),
          outcome (spectrum_panel apogee_wls spec),
          outcome (lightcurve_panel tess_lc) with
    | Ok _, Ok apogee_id, Ok _ => [save_name_of apogee_id]
    | _, _, _ => []
    end.
Proof.
  rewrite plot_trace.
  change (Figure 20 10 :: ?t) with ([Figure 20 10] ++ t).
  rewrite !artifacts_app, population_panel_artifacts. simpl.
  destruct (outcome (population_panel allstar spec)); [|reflexivity].
  rewrite artifacts_app, spectrum_panel_artifacts. simpl.
  destruct (outcome (spectrum_panel apogee_wls spec)); [|reflexivity].
  rewrite artifacts_app, lightcurve_panel_artifacts. simpl.
  destruct (outcome (lightcurve_panel tess_lc)); reflexivity.
Qed.

Lemma plot_raise_no_artifact (allstar : list allstar_row) (apogee_wls : list wave)
  (spec : apogee_spec) (tess_lc : tess_lightcurve) (e : exn) :
  outcome (plot_spectrum_and_lc allstar apogee_wls spec tess_lc) = Raise e ->
  artifacts (trace (plot_spectrum_and_lc allstar apogee_wls spec tess_lc)) = [].
Proof.
  rewrite plot_outcome, plot_artifacts.
  destruct (outcome (population_panel allstar spec)); [|reflexivity].
  destruct (outcome (spectrum_panel apogee_wls spec)); [|reflexivity].
  destruct (outcome (lightcurve_panel tess_lc)); [discriminate|reflexivity].
Qed.

(** X7.  The builder saves a file only as its last step but two: a run that
    raises, in whichever panel, has saved nothing, and a run that completes
    has saved exactly one file. *)
Theorem plot_saves_only_on_completion
  (allstar : list allstar_row) (apogee_wls : list wave)
  (spec : apogee_spec) (tess_lc : tess_lightcurve) :
  match outcome (plot_spectrum_and_lc allstar apogee_wls spec tess_lc) with
  | Ok _ =>
      List.length
        (artifacts (trace (plot_spectrum_and_lc allstar apogee_wls spec tess_lc)))
      = 1%nat
  | Raise _ =>
      artifacts (trace (plot_spectrum_and_lc allstar apogee_wls spec tess_lc)) = []
  end.
Proof.
  destruct (outcome (plot_spectrum_and_lc allstar apogee_wls spec tess_lc)) eqn:E.
  - rewrite plot_outcome in E. rewrite plot_artifacts.
    destruct (outcome (population_panel allstar spec)); [|discriminate].
    destruct (outcome (spectrum_panel apogee_wls spec)); [|discriminate].
    destruct (outcome (lightcurve_panel tess_lc)); [reflexivity|discriminate].
  - eapply plot_raise_no_artifact. exact E.
Qed.

(** ** The target star's parameters *)

Lemma cell_falsy_iff (c : cell) :
  cell_truthy c = false
  <-> c = None \/ exists q, c = Some (Fin q) /\ q == 0.
Proof.
  split.
  - destruct c as [x|]; [|left; reflexivity].
    destruct x as [| |q|]; simpl; try discriminate.
    intros H. right. exists q. split; [reflexivity|].
    apply negb_false_iff, Qeq_bool_iff in H. exact H.
  - intros [->|(q & -> & Hq)]; [reflexivity|].
    simpl. apply negb_false_iff, Qeq_bool_iff. exact Hq.
Qed.

Section TargetStar.

Variable allstar : list allstar_row.
Variable spec : apogee_spec.
Variable row0 : aspcap_row.
Variable r : allstar_row.
Hypothesis Hrow : nth_error (hdu4 spec) 0 = Some row0.
Hypothesis Hcat : catalog_row allstar (APOGEE_ID row0) = Some r.

Lemma population_valid_run :
  cell_truthy (TEFF r) = true ->
  population_panel allstar spec
  = ([catalog_scatter allstar;
      Colorbar ax1 "bottom" "Metallicity [Fe/H]";
      Scatter ax1 [cell_value (TEFF r)] [cell_value (LOGG r)] [cell_value (FE_H r)]
        "*" 1000 (-1) (1 # 2) 5 (Some "APOGEE Parameters");
      SetXLim ax1 (VFloat (Fin 7000)) (VFloat (Fin 3000));
      SetYLim ax1 (VFloat (Fin (11 # 2))) (VFloat (Fin (- (1 # 2))));
      SetXLabel ax1 "Effective Temperature [$T_{\rm{eff}}$, K]";
      SetYLabel ax1 "Surface Gravity [$\log(g)$]";
      Grid ax1;
      SetTitle ax1 "APOGEE Stellar Parameters - allStar"],
     Ok tt).
Proof using Hrow Hcat.
  intros Ht.
  destruct (target_index_present allstar (APOGEE_ID row0) Hcat) as (indx & Hidx & Hnth).
  unfold population_panel.
  rewrite (getitem_nth _ _ Hrow). simpl. rewrite Hidx. simpl.
  rewrite (getitem_nth _ _ (map_nth_error TEFF _ _ Hnth)), Ht. simpl.
  rewrite (getitem_nth _ _ (map_nth_error LOGG _ _ Hnth)). simpl.
  rewrite (getitem_nth _ _ (map_nth_error FE_H _ _ Hnth)). reflexivity.
Qed.

Lemma population_fallback_run :
  cell_truthy (TEFF r) = false ->
  exists rest res,
    population_panel allstar spec
    = (catalog_scatter allstar :: Colorbar ax1 "bottom" "Metallicity [Fe/H]"
       :: PrintLine quality_warning :: rest, res) /\
    res = (match getitem (FPARAM row0) 0, getitem (FPARAM row0) 1,
                 getitem (FPARAM row0) 3 with
           | Ok _, Ok _, Ok _ => Ok tt
           | Raise e, _, _ | Ok _, Raise e, _ | Ok _, Ok _, Raise e => Raise e
           end).
Proof using Hrow Hcat.
  intros Ht.
  destruct (target_index_present allstar (APOGEE_ID row0) Hcat) as (indx & Hidx & Hnth).
  unfold population_panel.
  rewrite (getitem_nth _ _ Hrow). simpl. rewrite Hidx. simpl.
  rewrite (getitem_nth _ _ (map_nth_error TEFF _ _ Hnth)), Ht. simpl.
  rewrite (getitem_nth _ _ (map_nth_error FPARAM _ _ Hrow)). simpl.
  destruct (getitem (FPARAM row0) 0); simpl; [|eexists _, _; split; reflexivity].
  destruct (getitem (FPARAM row0) 1); simpl; [|eexists _, _; split; reflexivity].
  destruct (getitem (FPARAM row0) 3); simpl; eexists _, _; split; reflexivity.
Qed.

End TargetStar.

(** X8.  When the first catalog row of the spectrum's star has a temperature
    that counts as true and an unmasked surface gravity and metallicity,
    the population panel completes without any printed line and overlays
    the star once, at the temperature, surface gravity and metallicity of
    that first row (later rows of the same star are not read). *)
Theorem valid_parameters_overlay
  (allstar : list allstar_row) (spec : apogee_spec)
  (row0 : aspcap_row) (r : allstar_row) (teff logg fe_h : float) :
  nth_error (hdu4 spec) 0 = Some row0 ->
  catalog_row allstar (APOGEE_ID row0) = Some r ->
  TEFF r = Some teff ->
  truthy teff = true ->
  LOGG r = Some logg ->
  FE_H r = Some fe_h ->
  outcome (population_panel allstar spec) = Ok tt /\
  scatters_with "*" (trace (population_panel allstar spec))
  = [Scatter ax1 [VFloat teff] [VFloat logg] [VFloat fe_h]
       "*" 1000 (-1) (1 # 2) 5 (Some "APOGEE Parameters")] /\
  filter is_print (trace (population_panel allstar spec)) = [].
Proof.
  intros Hrow Hcat Hteff Ht Hlogg Hfe_h.
  assert (Hc : cell_truthy (TEFF r) = true) by (rewrite Hteff; exact Ht).
  rewrite (population_valid_run allstar spec Hrow Hcat Hc).
  rewrite Hteff, Hlogg, Hfe_h.
  repeat split.
Qed.

Lemma valid_parameters_overlay_witness :
  outcome (population_panel allstar_duplicate_example aspcap_star_example) = Ok tt /\
  scatters_with "*" (trace (population_panel allstar_duplicate_example
                                             aspcap_star_example))
  = [Scatter ax1 [VFloat (Fin 6012)] [VFloat (Fin 2)] [VFloat (Fin (- (1 # 10)))]
       "*" 1000 (-1) (1 # 2) 5 (Some "APOGEE Parameters")] /\
  filter is_print (trace (population_panel allstar_duplicate_example
                                           aspcap_star_example)) = [].
Proof.
  apply (@valid_parameters_overlay allstar_duplicate_example aspcap_star_example
           (mk_aspcap "V1154_Cyg" [Fin 6000; Fin 2; Fin 1; Fin (- (1 # 10))])
           (mk_allstar "V1154_Cyg" (Some (Fin 6012)) (Some (Fin 2))
                       (Some (Fin (- (1 # 10)))))
           (Fin 6012) (Fin 2) (Fin (- (1 # 10))));
    reflexivity.
Defined.

(** X9.  The quality warning is printed exactly when the temperature cell of
    the star's first catalog row is masked or is the number zero: the test
    is the truth value of the cell, so an unmasked NaN counts as valid. *)
Theorem quality_warning_iff_falsy
  (allstar : list allstar_row) (spec : apogee_spec)
  (row0 : aspcap_row) (r : allstar_row) :
  nth_error (hdu4 spec) 0 = Some row0 ->
  catalog_row allstar (APOGEE_ID row0) = Some r ->
  (In (PrintLine quality_warning) (trace (population_panel allstar spec))
   <-> TEFF r = None \/ exists q, TEFF r = Some (Fin q) /\ q == 0).
Proof.
  intros Hrow Hcat. rewrite <- cell_falsy_iff.
  destruct (cell_truthy (TEFF r)) eqn:Ht.
  - rewrite (population_valid_run allstar spec Hrow Hcat Ht). simpl.
    split; [|discriminate].
    intros H. repeat (destruct H as [H|H]; [discriminate H|]). contradiction.
  - destruct (population_fallback_run allstar spec Hrow Hcat Ht)
      as (rest & res & -> & _).
    simpl. split; [reflexivity|]. intros _. right. right. left. reflexivity.
Qed.

Lemma quality_warning_iff_falsy_witness :
  In (PrintLine quality_warning)
     (trace (population_panel allstar_example aspcap_binary_example))
  <-> None = (@None float) \/ exists q, None = Some (Fin q) /\ q == 0.
Proof.
  apply (@quality_warning_iff_falsy allstar_example aspcap_binary_example
           (mk_aspcap "2M19203184+3830492"
              [Fin 5800; Fin (42 # 10); Fin 1; Fin (5 # 100);
               Fin 0; Fin 0; Fin 0; Fin 0; Fin 0])
           (mk_allstar "2M19203184+3830492" None None None));
    reflexivity.
Defined.

(** X10.  In the fallback branch the pipeline-fit parameters are read at
    positions 0, 1 and 3: with fewer than four of them the panel raises an
    index error after the warning has been printed, the builder stops with
    that error and no file is saved. *)
Theorem fallback_short_fparam
  (allstar : list allstar_row) (apogee_wls : list wave)
  (spec : apogee_spec) (tess_lc : tess_lightcurve)
  (row0 : aspcap_row) (r : allstar_row) :
  nth_error (hdu4 spec) 0 = Some row0 ->
  catalog_row allstar (APOGEE_ID row0) = Some r ->
  cell_truthy (TEFF r) = false ->
  (List.length (FPARAM row0) < 4)%nat ->
  exists msg,
    outcome (population_panel allstar spec) = Raise (IndexError msg) /\
    In (PrintLine quality_warning) (trace (population_panel allstar spec)) /\
    outcome (plot_spectrum_and_lc allstar apogee_wls spec tess_lc)
    = Raise (IndexError msg) /\
    artifacts (trace (plot_spectrum_and_lc allstar apogee_wls spec tess_lc)) = [].
Proof.
  intros Hrow Hcat Ht Hlen.
  destruct (population_fallback_run allstar spec Hrow Hcat Ht)
    as (rest & res & Hp & Hres).
  assert (Hraise : res = Raise (IndexError "index out of bounds")).
  { rewrite Hres. destruct (FPARAM row0) as [|a [|b [|c [|d l]]]];
      try reflexivity. simpl in Hlen. lia. }
  subst res. rewrite Hraise in Hp.
  assert (Ho : outcome (plot_spectrum_and_lc allstar apogee_wls spec tess_lc)
               = Raise (IndexError "index out of bounds"))
    by (rewrite plot_outcome, Hp; reflexivity).
  eexists. split; [rewrite Hp; reflexivity|]. split.
  - rewrite Hp. simpl. right. right. left. reflexivity.
  - split; [exact Ho|]. eapply plot_raise_no_artifact. exact Ho.
Qed.

Lemma fallback_short_fparam_witness :
  exists msg,
    outcome (population_panel allstar_example aspcap_short_fparam_example)
    = Raise (IndexError msg) /\
    In (PrintLine quality_warning)
       (trace (population_panel allstar_example aspcap_short_fparam_example)) /\
    outcome (plot_spectrum_and_lc allstar_example apogee_wls_example
               aspcap_short_fparam_example tess_lc_example)
    = Raise (IndexError msg) /\
    artifacts (trace (plot_spectrum_and_lc allstar_example apogee_wls_example
                        aspcap_short_fparam_example tess_lc_example)) = [].
Proof.
  apply (@fallback_short_fparam allstar_example apogee_wls_example
           aspcap_short_fparam_example tess_lc_example
           (mk_aspcap "2M19203184+3830492" [Fin 5800; Fin (42 # 10); Fin 1])
           (mk_allstar "2M19203184+3830492" None None None)).
  - reflexivity.
  - reflexivity.
  - reflexivity.
  - simpl. lia.
Defined.

(** ** The number of catalog points *)

Lemma stride_from_length {A} (step : nat) (a : list A) (skip : nat) :
  (skip < step)%nat ->
  List.length (stride_from step skip a)
  = ((List.length a + step - 1 - skip) / step)%nat.
Proof.
  revert skip. induction a as [|x a IH]; intros skip Hskip.
  - simpl. symmetry. apply Nat.div_small. lia.
  - destruct skip as [|k].
    + change (List.length (stride_from step 0 (x :: a)))
        with (S (List.length (stride_from step (step - 1) a))).
      rewrite IH by lia.
      change (List.length (x :: a)) with (S (List.length a)).
      generalize (List.length a). intros n.
      replace (n + step - 1 - (step - 1))%nat with n by lia.
      replace (S n + step - 1 - 0)%nat with (n + 1 * step)%nat by lia.
      rewrite Nat.div_add by lia. lia.
    + change (List.length (stride_from step (S k) (x :: a)))
        with (List.length (stride_from step k a)).
      rewrite IH by lia.
      change (List.length (x :: a)) with (S (List.length a)). f_equal. lia.
Qed.

(** X11.  The composite figure draws [ceil(n / 10)] of the [n] catalog entries:
    the catalog scatter is the first call of the population panel and each
    of its three columns has [(n + 9) / 10] values. *)
Theorem population_panel_point_count
  (allstar : list allstar_row) (spec : apogee_spec) :
  exists xs ys cs,
    hd_error (trace (population_panel allstar spec))
    = Some (Scatter ax1 xs ys cs "." 1 (-1) (1 # 2) 1 None) /\
    List.length xs = ((List.length allstar + 9) / 10)%nat /\
    List.length ys = ((List.length allstar + 9) / 10)%nat /\
    List.length cs = ((List.length allstar + 9) / 10)%nat.
Proof.
  eexists _, _, _. split.
  - unfold population_panel. run_steps. reflexivity.
  - repeat split; rewrite length_map; unfold slice_step;
      rewrite stride_from_length, length_map by lia; f_equal; lia.
Qed.

(** ** When the panels complete *)

Lemma target_index_none (allstar : list allstar_row) (apogee_id : string) :
  catalog_row allstar apogee_id = None ->
  target_index allstar apogee_id = Raise (IndexError "index out of bounds").
Proof.
  intros H. unfold catalog_row in H. unfold target_index, np_where.
  pose proof (kept_from_find (fun r => String.eqb (cat_APOGEE_ID r) apogee_id)
                allstar 0) as Hk.
  rewrite H in Hk. rewrite Hk. reflexivity.
Qed.

Lemma getitem_raise {A} (a : list A) (i : nat) (e : exn) :
  getitem a i = Raise e -> e = IndexError "index out of bounds".
Proof.
  unfold getitem. destruct (nth_error a i); [discriminate|].
  intros H. injection H as <-. reflexivity.
Qed.

Lemma population_raises_index_error (allstar : list allstar_row) (spec : apogee_spec)
  (e : exn) :
  outcome (population_panel allstar spec) = Raise e ->
  e = IndexError "index out of bounds".
Proof.
  unfold population_panel, target_index.
  run_panel; intros H; try discriminate; injection H as <-;
    match goal with
    | Hg : getitem _ _ = Raise ?e0 |- ?e0 = _ => exact (getitem_raise _ _ Hg)
    end.
Qed.

(** The panels record the drawing calls; they do not run them.  What is
    stated below of a completed panel is therefore stated as a consequence
    of completion, and what is stated of a failure names the failing
    indexing or reduction of the panel's own code. *)

Lemma population_panel_ok_inv (allstar : list allstar_row) (spec : apogee_spec) :
  outcome (population_panel allstar spec) = Ok tt ->
  exists row0 r,
    nth_error (hdu4 spec) 0 = Some row0 /\
    catalog_row allstar (APOGEE_ID row0) = Some r /\
    (cell_truthy (TEFF r) = true \/ (4 <= List.length (FPARAM row0))%nat).
Proof.
  intros Hok.
  destruct (nth_error (hdu4 spec) 0) as [row0|] eqn:Hrow.
  - destruct (catalog_row allstar (APOGEE_ID row0)) as [r|] eqn:Hcat.
    + exists row0, r. split; [reflexivity|]. split; [exact Hcat|].
      destruct (cell_truthy (TEFF r)) eqn:Ht; [left; reflexivity|right].
      destruct (population_fallback_run allstar spec Hrow Hcat Ht)
        as (rest & res & Hp & Hres).
      rewrite Hp in Hok. simpl in Hok. rewrite Hok in Hres.
      destruct (FPARAM row0) as [|a [|b [|c [|d l]]]]; try discriminate Hres.
      simpl. lia.
    + exfalso. unfold population_panel in Hok.
      rewrite (getitem_nth _ _ Hrow) in Hok. simpl in Hok.
      rewrite (target_index_none _ _ Hcat) in Hok. discriminate Hok.
  - exfalso. unfold population_panel, getitem in Hok.
    rewrite Hrow in Hok. discriminate Hok.
Qed.

(** X12.  Unless the spectrum has a parameter row, the star of that row is in
    the catalog, and either the temperature cell of its first catalog row
    counts as true or the row has at least four pipeline-fit parameters,
    the population panel stops at one of its index expressions: the panel,
    and with it the builder, raises an [IndexError], and no file is
    saved. *)
Theorem missing_star_parameters_index_error
  (allstar : list allstar_row) (apogee_wls : list wave)
  (spec : apogee_spec) (tess_lc : tess_lightcurve) :
  ~ (exists row0 r,
       nth_error (hdu4 spec) 0 = Some row0 /\
       catalog_row allstar (APOGEE_ID row0) = Some r /\
       (cell_truthy (TEFF r) = true \/ (4 <= List.length (FPARAM row0))%nat)) ->
  exists msg,
    outcome (population_panel allstar spec) = Raise (IndexError msg) /\
    outcome (plot_spectrum_and_lc allstar apogee_wls spec tess_lc)
    = Raise (IndexError msg) /\
    artifacts (trace (plot_spectrum_and_lc allstar apogee_wls spec tess_lc)) = [].
Proof.
  intros Hnot.
  destruct (outcome (population_panel allstar spec)) as [[]|e] eqn:E.
  - exfalso. apply Hnot. apply population_panel_ok_inv. exact E.
  - pose proof (population_raises_index_error _ _ E) as ->.
    eexists. split; [reflexivity|].
    assert (Hb : outcome (plot_spectrum_and_lc allstar apogee_wls spec tess_lc)
                 = Raise (IndexError "index out of bounds"))
      by (rewrite plot_outcome, E; reflexivity).
    split; [exact Hb|].
    eapply plot_raise_no_artifact. exact Hb.
Qed.

Lemma missing_star_parameters_index_error_witness :
  exists msg,
    outcome (population_panel allstar_example aspcap_short_fparam_example)
    = Raise (IndexError msg) /\
    outcome (plot_spectrum_and_lc allstar_example apogee_wls_example
               aspcap_short_fparam_example tess_lc_example)
    = Raise (IndexError msg) /\
    artifacts (trace (plot_spectrum_and_lc allstar_example apogee_wls_example
                        aspcap_short_fparam_example tess_lc_example)) = [].
Proof.
  apply (@missing_star_parameters_index_error allstar_example apogee_wls_example
           aspcap_short_fparam_example tess_lc_example).
  intros (row0 & r & Hrow & Hcat & Hor).
  injection Hrow as <-. vm_compute in Hcat. injection Hcat as <-.
  destruct Hor as [Ht|Hlen]; [discriminate Ht|simpl in Hlen; lia].
Defined.

Lemma mask_index_inv {A} (a : list A) (mask : list bool) (l : list A) :
  mask_index a mask = Ok l ->
  List.length a = List.length mask /\ l = compress mask a.
Proof.
  unfold mask_index. destruct (List.length a =? List.length mask)%nat eqn:E;
    [|discriminate].
  intros H. injection H as <-. apply Nat.eqb_eq in E. auto.
Qed.

Lemma mask_index_raise {A} (a : list A) (mask : list bool) (e : exn) :
  mask_index a mask = Raise e -> List.length a <> List.length mask.
Proof.
  unfold mask_index. destruct (List.length a =? List.length mask)%nat eqn:E;
    [discriminate|].
  intros _. apply Nat.eqb_neq. exact E.
Qed.

Lemma spectrum_panel_ok (apogee_wls : list wave) (spec : apogee_spec)
  (row0 : aspcap_row) :
  List.length apogee_wls = List.length (data (hdu2 spec)) ->
  List.length (data (hdu1 spec)) = List.length (data (hdu2 spec)) ->
  List.length (data (hdu3 spec)) = List.length (data (hdu2 spec)) ->
  apogee_wls <> [] ->
  nth_error (hdu4 spec) 0 = Some row0 ->
  outcome (spectrum_panel apogee_wls spec) = Ok (APOGEE_ID row0).
Proof.
  intros Hw Ho Hm Hne Hrow.
  destruct (masked_series apogee_wls (data (hdu2 spec)) Hw) as (Ew & _).
  destruct (masked_series (data (hdu1 spec)) (data (hdu2 spec)) Ho) as (Eo & _).
  destruct (masked_series (data (hdu3 spec)) (data (hdu2 spec)) Hm) as (Em & _).
  unfold spectrum_panel. rewrite Ew, Eo, Em, (getitem_nth _ _ Hrow).
  destruct apogee_wls as [|w rest]; [congruence|]. reflexivity.
Qed.

Lemma spectrum_panel_ok_inv (apogee_wls : list wave) (spec : apogee_spec)
  (apogee_id : string) :
  outcome (spectrum_panel apogee_wls spec) = Ok apogee_id ->
  List.length apogee_wls = List.length (data (hdu2 spec)) /\
  List.length (data (hdu1 spec)) = List.length (data (hdu2 spec)) /\
  List.length (data (hdu3 spec)) = List.length (data (hdu2 spec)) /\
  apogee_wls <> [] /\
  exists row0, nth_error (hdu4 spec) 0 = Some row0 /\ apogee_id = APOGEE_ID row0.
Proof.
  unfold spectrum_panel.
  destruct (mask_index apogee_wls _) as [wls|] eqn:Ew;
    [|run_steps; discriminate].
  destruct (mask_index (data (hdu1 spec)) _) as [obs|] eqn:Eo;
    [|run_steps; discriminate].
  destruct (mask_index (data (hdu3 spec)) _) as [mod_|] eqn:Em;
    [|run_steps; discriminate].
  apply mask_index_inv in Ew, Eo, Em.
  destruct Ew as [Lw _], Eo as [Lo _], Em as [Lm _].
  unfold pixel_mask in Lw, Lo, Lm. rewrite length_map in Lw, Lo, Lm.
  destruct apogee_wls as [|w rest]; [run_steps; discriminate|].
  unfold getitem.
  destruct (nth_error (hdu4 spec) 0) as [row0|] eqn:Hrow;
    [|run_steps; discriminate].
  run_steps. intros H. injection H as <-.
  repeat (split; [assumption || discriminate|]). exists row0. auto.
Qed.

(** X13.  The spectrum panel completes only if the wavelength grid it is
    given, the observed flux and the model flux all have the length of the
    uncertainty array, the grid is not empty and the parameter table has a
    row; what it returns is the identifier of that row.  A grid left over
    from a file of another length therefore stops the builder. *)
Theorem spectrum_panel_completes_only_if
  (apogee_wls : list wave) (spec : apogee_spec) (apogee_id : string) :
  outcome (spectrum_panel apogee_wls spec) = Ok apogee_id ->
  List.length apogee_wls = List.length (data (hdu2 spec)) /\
  List.length (data (hdu1 spec)) = List.length (data (hdu2 spec)) /\
  List.length (data (hdu3 spec)) = List.length (data (hdu2 spec)) /\
  apogee_wls <> [] /\
  exists row0, nth_error (hdu4 spec) 0 = Some row0 /\ apogee_id = APOGEE_ID row0.
Proof.
  apply spectrum_panel_ok_inv.
Qed.

Lemma spectrum_panel_completes_only_if_witness :
  List.length apogee_wls_example = List.length (data (hdu2 aspcap_star_example)) /\
  List.length (data (hdu1 aspcap_star_example))
  = List.length (data (hdu2 aspcap_star_example)) /\
  List.length (data (hdu3 aspcap_star_example))
  = List.length (data (hdu2 aspcap_star_example)) /\
  apogee_wls_example <> [] /\
  exists row0,
    nth_error (hdu4 aspcap_star_example) 0 = Some row0 /\
    "V1154_Cyg" = APOGEE_ID row0.
Proof.
  apply (@spectrum_panel_completes_only_if apogee_wls_example aspcap_star_example
           "V1154_Cyg").
  reflexivity.
Defined.

Lemma lightcurve_panel_ok_inv (tess_lc : tess_lightcurve) :
  outcome (lightcurve_panel tess_lc) = Ok tt ->
  defined (map TIME (LIGHTCURVE tess_lc)) <> [] /\
  exists lo hi,
    nanmin (map TIME (LIGHTCURVE tess_lc)) = Ok (Fin lo) /\
    nanmax (map TIME (LIGHTCURVE tess_lc)) = Ok (Fin hi).
Proof.
  unfold lightcurve_panel.
  set (time := map TIME (LIGHTCURVE tess_lc)).
  destruct (gridlines time) as [days|e] eqn:Hg; [|run_steps; discriminate].
  intros _. unfold gridlines in Hg.
  destruct (nanmin time) as [lo|] eqn:Hlo; [|discriminate Hg].
  destruct lo as [| |lo|]; try discriminate Hg. simpl in Hg.
  destruct (nanmax time) as [hi|] eqn:Hhi; [|discriminate Hg].
  destruct hi as [| |hi|]; try discriminate Hg.
  split; [|exists lo, hi; split; reflexivity].
  intros Hd. destruct time as [|x rest]; [discriminate Hlo|].
  pose proof (defined_nil_all_nan _ Hd) as Hall.
  inversion Hall as [|? ? Hx Hrest]; subst.
  assert (Hdr : defined rest = []).
  { unfold defined in *. simpl in Hd. exact Hd. }
  simpl in Hlo.
  rewrite fmin_sel, (fold_sel_from_nan leb leb_refl leb_total rest), Hdr in Hlo.
  discriminate Hlo.
Qed.

(** X14.  Necessary conditions for the builder: it completes only if the star
    of the spectrum's parameter row is in the catalog, with a temperature
    that counts as true or with four pipeline-fit parameters to fall back
    on, the four arrays of the spectrum panel have one non-zero length,
    and the time column has a defined sample and finite least and greatest
    defined samples. *)
Theorem plot_completes_only_if
  (allstar : list allstar_row) (apogee_wls : list wave)
  (spec : apogee_spec) (tess_lc : tess_lightcurve) :
  outcome (plot_spectrum_and_lc allstar apogee_wls spec tess_lc) = Ok tt ->
  exists row0 r lo hi,
    nth_error (hdu4 spec) 0 = Some row0 /\
    catalog_row allstar (APOGEE_ID row0) = Some r /\
    (cell_truthy (TEFF r) = true \/ (4 <= List.length (FPARAM row0))%nat) /\
    List.length apogee_wls = List.length (data (hdu2 spec)) /\
    List.length (data (hdu1 spec)) = List.length (data (hdu2 spec)) /\
    List.length (data (hdu3 spec)) = List.length (data (hdu2 spec)) /\
    apogee_wls <> [] /\
    defined (map TIME (LIGHTCURVE tess_lc)) <> [] /\
    nanmin (map TIME (LIGHTCURVE tess_lc)) = Ok (Fin lo) /\
    nanmax (map TIME (LIGHTCURVE tess_lc)) = Ok (Fin hi).
Proof.
  rewrite plot_outcome.
  destruct (outcome (population_panel allstar spec)) as [[]|] eqn:Ep;
    [|discriminate].
  destruct (outcome (spectrum_panel apogee_wls spec)) as [apogee_id|] eqn:Es;
    [|discriminate].
  destruct (outcome (lightcurve_panel tess_lc)) as [[]|] eqn:El;
    [|discriminate].
  intros _.
  destruct (population_panel_ok_inv _ _ Ep) as (row0 & r & Hrow & Hcat & Hor).
  destruct (spectrum_panel_ok_inv _ _ Es) as (Hw & Ho & Hm & Hne & _).
  destruct (lightcurve_panel_ok_inv _ El) as (Hd & lo & hi & Hlo & Hhi).
  exists row0, r, lo, hi. repeat (split; [assumption|]). assumption.
Qed.

Lemma plot_completes_only_if_witness :
  exists row0 r lo hi,
    nth_error (hdu4 aspcap_binary_example) 0 = Some row0 /\
    catalog_row allstar_example (APOGEE_ID row0) = Some r /\
    (cell_truthy (TEFF r) = true \/ (4 <= List.length (FPARAM row0))%nat) /\
    List.length apogee_wls_example = List.length (data (hdu2 aspcap_binary_example)) /\
    List.length (data (hdu1 aspcap_binary_example))
    = List.length (data (hdu2 aspcap_binary_example)) /\
    List.length (data (hdu3 aspcap_binary_example))
    = List.length (data (hdu2 aspcap_binary_example)) /\
    apogee_wls_example <> [] /\
    defined (map TIME (LIGHTCURVE tess_lc_example)) <> [] /\
    nanmin (map TIME (LIGHTCURVE tess_lc_example)) = Ok (Fin lo) /\
    nanmax (map TIME (LIGHTCURVE tess_lc_example)) = Ok (Fin hi).
Proof.
  apply (@plot_completes_only_if allstar_example apogee_wls_example
           aspcap_binary_example tess_lc_example).
  reflexivity.
Defined.

(** ** The arrays handed to [plot] *)

Lemma shapes_of_emits (t : list event) :
  Forall (fun e => is_plot e = false) t -> Forall plot_shapes_agree t.
Proof.
  apply Forall_impl. intros e He. destruct e; try exact I. discriminate He.
Qed.

Lemma population_panel_shapes (allstar : list allstar_row) (spec : apogee_spec) :
  Forall plot_shapes_agree (trace (population_panel allstar spec)).
Proof.
  apply shapes_of_emits. unfold population_panel.
  run_panel; repeat constructor.
Qed.

Lemma spectrum_panel_shapes (apogee_wls : list wave) (spec : apogee_spec) :
  Forall plot_shapes_agree (trace (spectrum_panel apogee_wls spec)).
Proof.
  unfold spectrum_panel.
  destruct (mask_index apogee_wls _) as [wls|] eqn:Ew;
    [|run_steps; constructor].
  apply mask_index_inv in Ew. destruct Ew as [Lw ->].
  destruct (mask_index (data (hdu1 spec)) _) as [obs|] eqn:Eo;
    [|run_steps; constructor].
  apply mask_index_inv in Eo. destruct Eo as [Lo ->].
  assert (S1 : plot_shapes_agree
                 (Plot ax2
                    (map VWave (compress (pixel_mask (data (hdu2 spec))) apogee_wls))
                    (map VFloat (compress (pixel_mask (data (hdu2 spec)))
                                          (data (hdu1 spec))))
                    "k" "Observed Spectrum")).
  { simpl. rewrite !length_map, !compress_length by assumption. reflexivity. }
  destruct (mask_index (data (hdu3 spec)) _) as [mod_|] eqn:Em;
    [|run_steps; repeat constructor; exact S1].
  apply mask_index_inv in Em. destruct Em as [Lm ->].
  assert (S2 : plot_shapes_agree
                 (Plot ax2
                    (map VWave (compress (pixel_mask (data (hdu2 spec))) apogee_wls))
                    (map VFloat (compress (pixel_mask (data (hdu2 spec)))
                                          (data (hdu3 spec))))
                    "darkred" "Best Fit Model Spectrum")).
  { simpl. rewrite !length_map, !compress_length by assumption. reflexivity. }
  run_panel; repeat constructor; assumption.
Qed.

Lemma lightcurve_panel_shapes (tess_lc : tess_lightcurve) :
  Forall plot_shapes_agree (trace (lightcurve_panel tess_lc)).
Proof.
  unfold lightcurve_panel.
  assert (S1 : plot_shapes_agree
                 (Plot ax3 (map VFloat (map TIME (LIGHTCURVE tess_lc)))
                    (map (fun r => VFloat (SAP_FLUX r)) (LIGHTCURVE tess_lc))
                    "k" "TESS Light Curve")).
  { simpl. rewrite !length_map. reflexivity. }
  run_panel.
  - constructor; [exact S1|]. apply Forall_app. split.
    + apply Forall_forall. intros e He. apply in_map_iff in He.
      destruct He as (d & <- & _). exact I.
    + repeat constructor.
  - repeat constructor. exact S1.
Qed.

(** X15.  Every [plot] call of the builder is handed two arrays of one length,
    on every input: the masked wavelengths and fluxes come from one mask,
    and the light-curve columns from one table, so the plotting library's
    shape check cannot be what stops a run. *)
Theorem plotted_arrays_same_length
  (allstar : list allstar_row) (apogee_wls : list wave)
  (spec : apogee_spec) (tess_lc : tess_lightcurve) :
  Forall plot_shapes_agree
         (trace (plot_spectrum_and_lc allstar apogee_wls spec tess_lc)).
Proof.
  rewrite plot_trace. constructor; [exact I|].
  apply Forall_app. split; [apply population_panel_shapes|].
  destruct (outcome (population_panel allstar spec)); [|constructor].
  apply Forall_app. split; [apply spectrum_panel_shapes|].
  destruct (outcome (spectrum_panel apogee_wls spec)); [|constructor].
  apply Forall_app. split; [apply lightcurve_panel_shapes|].
  destruct (outcome (lightcurve_panel tess_lc)); repeat constructor.
Qed.

(** ** The stand-alone cells *)

Lemma combine_columns {A B C D} (f : A -> B) (g : A -> C) (h : A -> D) (l : list A) :
  combine (combine (map f l) (map g l)) (map h l)
  = map (fun r => (f r, g r, h r)) l.
Proof.
  induction l as [|x l IH]; simpl; [reflexivity|]. rewrite IH. reflexivity.
Qed.


(** X17.  When the spectrum cell completes, the grid it leaves behind has
    NAXIS1 wavelengths (NAXIS1 of the first extension, not zero), the three
    image arrays have that length, the parameter table has a row, and the
    spectrum panel of the builder, which repeats the cell's steps on
    that grid, completes on the same file. *)
Theorem spectrum_cell_grid_serves_panel (gca : axis) (aspcap_star : apogee_spec)
  (wls : list wave) :
  outcome (spectrum_cell gca aspcap_star) = Ok wls ->
  List.length wls = NAXIS1 (hdu1 aspcap_star) /\
  (0 < NAXIS1 (hdu1 aspcap_star))%nat /\
  List.length (data (hdu1 aspcap_star)) = NAXIS1 (hdu1 aspcap_star) /\
  List.length (data (hdu2 aspcap_star)) = NAXIS1 (hdu1 aspcap_star) /\
  List.length (data (hdu3 aspcap_star)) = NAXIS1 (hdu1 aspcap_star) /\
  exists row0,
    nth_error (hdu4 aspcap_star) 0 = Some row0 /\
    outcome (spectrum_panel wls aspcap_star) = Ok (APOGEE_ID row0).
Proof.
  pose proof (grid_length aspcap_star) as Hlen.
  unfold spectrum_cell.
  destruct (mask_index (apogee_wls_of aspcap_star) _) as [w|] eqn:Ew;
    [|run_steps; discriminate].
  destruct (mask_index (data (hdu1 aspcap_star)) _) as [obs|] eqn:Eo;
    [|run_steps; discriminate].
  destruct (mask_index (data (hdu3 aspcap_star)) _) as [mod_|] eqn:Em;
    [|run_steps; discriminate].
  apply mask_index_inv in Ew, Eo, Em.
  destruct Ew as [Lw _], Eo as [Lo _], Em as [Lm _].
  unfold pixel_mask in Lw, Lo, Lm. rewrite length_map in Lw, Lo, Lm.
  destruct (apogee_wls_of aspcap_star) as [|w0 rest] eqn:Eg;
    [run_steps; discriminate|].
  unfold getitem.
  destruct (nth_error (hdu4 aspcap_star) 0) as [row0|] eqn:Hrow;
    [|run_steps; discriminate].
  run_steps. intros H. injection H as <-.
  assert (Hpos : (0 < NAXIS1 (hdu1 aspcap_star))%nat)
    by (rewrite <- Hlen; simpl; lia).
  repeat (split; [congruence || exact Hpos|]).
  exists row0. split; [reflexivity|].
  apply spectrum_panel_ok; congruence.
Qed.

Lemma spectrum_cell_grid_serves_panel_witness :
  List.length (apogee_wls_of aspcap_star_example) = 4%nat /\
  (0 < 4)%nat /\
  List.length (data (hdu1 aspcap_star_example)) = 4%nat /\
  List.length (data (hdu2 aspcap_star_example)) = 4%nat /\
  List.length (data (hdu3 aspcap_star_example)) = 4%nat /\
  exists row0,
    nth_error (hdu4 aspcap_star_example) 0 = Some row0 /\
    outcome (spectrum_panel (apogee_wls_of aspcap_star_example) aspcap_star_example)
    = Ok (APOGEE_ID row0).
Proof.
  apply (@spectrum_cell_grid_serves_panel ax1 aspcap_star_example
           (apogee_wls_of aspcap_star_example)).
  reflexivity.
Defined.

(** X18.  The builder does not rebuild the grid: it masks the grid the spectrum
    cell left behind.  Given a spectrum whose uncertainty array has another
    length than that grid, the spectrum panel raises an index error before
    anything is drawn on its axes, and the builder saves no file. *)
Theorem stale_grid_index_error
  (allstar : list allstar_row) (aspcap_star spec : apogee_spec)
  (tess_lc : tess_lightcurve) :
  List.length (data (hdu2 spec)) <> NAXIS1 (hdu1 aspcap_star) ->
  spectrum_panel (apogee_wls_of aspcap_star) spec
  = ([], Raise (IndexError "boolean index did not match indexed array along axis 0")) /\
  (exists e, outcome (plot_spectrum_and_lc allstar (apogee_wls_of aspcap_star)
                        spec tess_lc) = Raise e) /\
  artifacts (trace (plot_spectrum_and_lc allstar (apogee_wls_of aspcap_star)
                      spec tess_lc)) = [].
Proof.
  intros Hlen.
  assert (Hs : spectrum_panel (apogee_wls_of aspcap_star) spec
               = ([], Raise (IndexError
                    "boolean index did not match indexed array along axis 0"))).
  { unfold spectrum_panel, mask_index, pixel_mask.
    rewrite length_map, grid_length.
    replace (NAXIS1 (hdu1 aspcap_star) =? List.length (data (hdu2 spec)))%nat
      with false by (symmetry; apply Nat.eqb_neq; congruence).
    reflexivity. }
  split; [exact Hs|].
  assert (He : exists e, outcome (plot_spectrum_and_lc allstar
                                    (apogee_wls_of aspcap_star) spec tess_lc)
                         = Raise e).
  { rewrite plot_outcome, Hs.
    destruct (outcome (population_panel allstar spec)); simpl; eauto. }
  split; [exact He|]. destruct He as [e He].
  eapply plot_raise_no_artifact. exact He.
Qed.

Lemma stale_grid_index_error_witness :
  spectrum_panel (apogee_wls_of aspcap_star_example)
    (mk_spec (hdu1 aspcap_star_example) (mk_image 0 0 2 [Fin 0; Fin 0])
             (hdu3 aspcap_star_example) (hdu4 aspcap_star_example))
  = ([], Raise (IndexError "boolean index did not match indexed array along axis 0")) /\
  (exists e, outcome (plot_spectrum_and_lc allstar_example
                        (apogee_wls_of aspcap_star_example)
                        (mk_spec (hdu1 aspcap_star_example)
                                 (mk_image 0 0 2 [Fin 0; Fin 0])
                                 (hdu3 aspcap_star_example)
                                 (hdu4 aspcap_star_example))
                        tess_lc_example) = Raise e) /\
  artifacts (trace (plot_spectrum_and_lc allstar_example
                      (apogee_wls_of aspcap_star_example)
                      (mk_spec (hdu1 aspcap_star_example)
                               (mk_image 0 0 2 [Fin 0; Fin 0])
                               (hdu3 aspcap_star_example)
                               (hdu4 aspcap_star_example))
                      tess_lc_example)) = [].
Proof.
  apply (@stale_grid_index_error allstar_example aspcap_star_example
           (mk_spec (hdu1 aspcap_star_example) (mk_image 0 0 2 [Fin 0; Fin 0])
                    (hdu3 aspcap_star_example) (hdu4 aspcap_star_example))
           tess_lc_example).
  simpl. lia.
Defined.

(** ** The orchestration, stage by stage *)

#[local] Arguments plot_spectrum_and_lc : simpl never.

Lemma progress_lines_artifacts (apogee_id : string) :
  artifacts (progress_lines apogee_id) = [].
Proof. reflexivity. Qed.

Section OrchestrationFacts.

Variable Observations : ArchiveClient.
Variable allstar : list allstar_row.
Variable apogee_wls : list wave.
Variable apogee_id : string.

(** Either a stage before the plot raised, and only progress lines were
    printed, or the builder was entered on an opened spectrum and light
    curve. *)
Lemma plot_variable_star_run :
  (exists e,
     outcome (plot_variable_star Observations allstar apogee_wls apogee_id) = Raise e /\
     Forall (fun ev => is_print ev = true)
            (trace (plot_variable_star Observations allstar apogee_wls apogee_id))) \/
  (exists spec tess_lc,
     trace (plot_variable_star Observations allstar apogee_wls apogee_id)
     = progress_lines apogee_id
       ++ trace (plot_spectrum_and_lc allstar apogee_wls spec tess_lc) /\
     outcome (plot_variable_star Observations allstar apogee_wls apogee_id)
     = outcome (plot_spectrum_and_lc allstar apogee_wls spec tess_lc)).
Proof.
  unfold plot_variable_star.
  run_archive;
    try (left; eexists; split; [reflexivity|repeat constructor]; fail).
  match goal with
  | |- context [plot_spectrum_and_lc allstar apogee_wls ?s ?l] =>
      right; exists s, l;
      destruct (plot_spectrum_and_lc allstar apogee_wls s l); split; reflexivity
  end.
Qed.

End OrchestrationFacts.

Lemma artifacts_of_prints (t : list event) :
  Forall (fun ev => is_print ev = true) t -> artifacts t = [].
Proof.
  induction 1 as [|e t He _ IH]; [reflexivity|].
  destruct e; try discriminate He. exact IH.
Qed.

(** X19.  [plot_variable_star] saves a file only when it completes: if any
    stage raises (a query, the product listing, a download, the opening of
    a file, the selection, or the builder itself) no file has been saved,
    and a completed run has saved exactly one. *)
Theorem plot_variable_star_saves_only_on_completion
  (Observations : ArchiveClient) (allstar : list allstar_row)
  (apogee_wls : list wave) (apogee_id : string) :
  match outcome (plot_variable_star Observations allstar apogee_wls apogee_id) with
  | Ok _ =>
      List.length
        (artifacts (trace (plot_variable_star Observations allstar apogee_wls
                             apogee_id))) = 1%nat
  | Raise _ =>
      artifacts (trace (plot_variable_star Observations allstar apogee_wls
                          apogee_id)) = []
  end.
Proof.
  destruct (plot_variable_star_run Observations allstar apogee_wls apogee_id)
    as [(e & -> & Hp)|(spec & tess_lc & -> & ->)].
  - apply artifacts_of_prints. exact Hp.
  - rewrite artifacts_app, progress_lines_artifacts. simpl.
    destruct (outcome (plot_spectrum_and_lc allstar apogee_wls spec tess_lc)) eqn:E.
    + rewrite plot_outcome in E. rewrite plot_artifacts.
      destruct (outcome (population_panel allstar spec)); [|discriminate].
      destruct (outcome (spectrum_panel apogee_wls spec)); [|discriminate].
      destruct (outcome (lightcurve_panel tess_lc)); [reflexivity|discriminate].
    + eapply plot_raise_no_artifact. exact E.
Qed.



Example requested_name_is_not_the_file_name :
  artifacts (trace (plot_variable_star archive_example allstar_example
                      apogee_wls_example "v1154 cyg"))
  = ["V1154_Cyg_APOGEE_spec_TESS_lightcurve.png"].
Proof. reflexivity. Qed.
